(** * FESTIM derived quantities and their CSV export

    A shallow embedding of
    - [festim/exports/surface_quantity.py]               ([SurfaceQuantity]),
    - [festim/exports/derived_quantities/average_volume.py]
      ([AverageVolume], [AverageVolumeCylindrical], [AverageVolumeSpherical]),
    - [FESTIM/exports/derived_quantities_export.py]       ([TotalVolume], [TotalSurface]).

    Numbers are read as the real numbers they denote: Python ints and floats
    are embedded in [R], [np.pi] is [PI] and [np.cos] is [cos].  The finite
    element engine (fenics) is external to the repository; it appears here as
    the interface [Engine], whose laws are those of an integral, together
    with one executable instance (a quadrature rule). *)

From Stdlib Require Import Reals Lra ZArith List.
From stdpp Require Import gmap strings.
From stdpp Require Import pretty.
From Stdlib Require Import Sorted.

(** ** The Python run time, as far as the exports use it *)

(** Exceptions carry the message the source gives them. *)
Inductive exn : Type :=
| TypeError (msg : string)
| ValueError (msg : string)
| IndexError (msg : string)
| AttributeError (msg : string)
| ZeroDivisionError (msg : string).

Inductive result (A : Type) : Type :=
| Ok (a : A)
| Raise (e : exn).
Arguments Ok {A} a.
Arguments Raise {A} e.

Definition bind {A B : Type} (m : result A) (k : A -> result B) : result B :=
  match m with
  | Ok a => k a
  | Raise e => Raise e
  end.

Notation "'let*' x ':=' m 'in' k" := (bind m (fun x => k))
  (at level 10, x name, m at level 100, k at level 200).

(** The classes an argument of a setter can belong to.  [bool] is the one
    class with a base other than [object] that the setters can tell apart:
    it derives from [int]. *)
Inductive pyclass : Type :=
| Cls_NoneType
| Cls_bool
| Cls_int
| Cls_float
| Cls_str
| Cls_SurfaceSubdomain1D
| Cls_Species
| Cls_other (name : string).

Inductive pyobj : Type :=
| PyNone
| PyBool (b : bool)
| PyInt (n : Z)
| PyFloat (x : R)
| PyStr (s : string)
| PySurfaceSubdomain1D (id : Z) (x : R)
| PySpecies (name : string)
| PyObject (cls : string).

Definition type_of (v : pyobj) : pyclass :=
  match v with
  | PyNone => Cls_NoneType
  | PyBool _ => Cls_bool
  | PyInt _ => Cls_int
  | PyFloat _ => Cls_float
  | PyStr _ => Cls_str
  | PySurfaceSubdomain1D _ _ => Cls_SurfaceSubdomain1D
  | PySpecies _ => Cls_Species
  | PyObject cls => Cls_other cls
  end.

Definition pyclass_eqb (c d : pyclass) : bool :=
  match c, d with
  | Cls_NoneType, Cls_NoneType
  | Cls_bool, Cls_bool
  | Cls_int, Cls_int
  | Cls_float, Cls_float
  | Cls_str, Cls_str
  | Cls_SurfaceSubdomain1D, Cls_SurfaceSubdomain1D
  | Cls_Species, Cls_Species => true
  | Cls_other n, Cls_other m => String.eqb n m
  | _, _ => false
  end.

(** The direct base class, where it is not [object]. *)
Definition base_class (c : pyclass) : option pyclass :=
  match c with
  | Cls_bool => Some Cls_int
  | _ => None
  end.

Definition issubclass (c d : pyclass) : bool :=
  pyclass_eqb c d ||
  match base_class c with
  | Some b => pyclass_eqb b d
  | None => false
  end.

(** [isinstance(value, (c1, ..., cn))]. *)
Definition isinstance (value : pyobj) (classes : list pyclass) : bool :=
  existsb (issubclass (type_of value)) classes.

(** [value is None]. *)
Definition is_None (value : pyobj) : bool :=
  match value with
  | PyNone => true
  | _ => false
  end.

(** [s.endswith(suffix)] on two [str]. *)
Definition endswith (s suffix : string) : bool :=
  (String.length suffix <=? String.length s)%nat &&
  String.eqb
    (String.substring (String.length s - String.length suffix)
                      (String.length suffix) s)
    suffix.

(** [value.endswith(suffix)] on an arbitrary object: only a [str] has the
    method. *)
Definition py_endswith (value : pyobj) (suffix : string) : result bool :=
  match value with
  | PyStr s => Ok (endswith s suffix)
  | _ => Raise (AttributeError "object has no attribute 'endswith'")
  end.

(** [value[i]] on a tuple of numbers. *)
Definition getitem (value : list R) (i : nat) : result R :=
  match nth_error value i with
  | Some x => Ok x
  | None => Raise (IndexError "tuple index out of range")
  end.

(** [x / y] on two Python floats. *)
Definition py_div (x y : R) : result R :=
  if Req_dec_T y 0 then Raise (ZeroDivisionError "float division by zero")
  else Ok (x / y)%R.

(** The quotient of two [numpy.float64]: a zero divisor gives [nan] or an
    infinity (and a warning), not an exception. *)
Inductive npfloat : Type :=
| Finite (x : R)
| NanOrInf.

Definition np_div (x y : R) : npfloat :=
  if Req_dec_T y 0 then NanOrInf else Finite (x / y)%R.

(** ** The file system seen by [open(..., mode="a")] and [csv.writer] *)

(** A CSV file is the list of its rows, a row the list of its cells. *)
Definition csv_row : Type := list R.

Inductive fs_event : Type :=
| EvOpen (path : string) (mode : string)
| EvWriteRow (path : string) (row : csv_row)
| EvClose (path : string).

Record FileSystem : Type := mkFS {
  files : gmap string (list csv_row);
  trace : list fs_event
}.

Definition log (ev : fs_event) (fs : FileSystem) : FileSystem :=
  mkFS (files fs) (trace fs ++ [ev]).

(** [open(file, mode="a", newline="")]: the file is created empty when it
    does not exist and its content is kept when it does.  Anything that is
    not a path is refused before the file system is reached (file
    descriptors are not modelled: the [filename] setter stores none). *)
Definition open_append (file : pyobj) (fs : FileSystem)
  : result string * FileSystem :=
  match file with
  | PyStr path =>
      (Ok path,
       log (EvOpen path "a")
           (mkFS (<[path := default [] (files fs !! path)]> (files fs))
                 (trace fs)))
  | _ =>
      (Raise (TypeError
                "expected str, bytes or os.PathLike object, not NoneType"),
       fs)
  end.

(** [csv.writer(file).writerow(row)] on a file opened for appending. *)
Definition writerow (path : string) (row : csv_row) (fs : FileSystem)
  : FileSystem :=
  log (EvWriteRow path row)
      (mkFS (<[path := default [] (files fs !! path) ++ [row]]> (files fs))
            (trace fs)).

(** Leaving the [with] block. *)
Definition close (path : string) (fs : FileSystem) : FileSystem :=
  log (EvClose path) fs.

(** ** [festim/exports/surface_quantity.py] *)

Module SurfaceQuantity.

(** The attributes of an instance.  [value] is not set by [__init__]: it
    is assigned by whoever computes the quantity, and is [None] here until
    then. *)
Record t : Type := mk {
  _field : pyobj;
  _surface_subdomain : pyobj;
  _filename : pyobj;
  value : option R
}.

Definition with_field (self : t) (v : pyobj) : t :=
  mk v (_surface_subdomain self) (_filename self) (value self).
Definition with_surface_subdomain (self : t) (v : pyobj) : t :=
  mk (_field self) v (_filename self) (value self).
Definition with_filename (self : t) (v : pyobj) : t :=
  mk (_field self) (_surface_subdomain self) v (value self).
Definition with_value (self : t) (v : R) : t :=
  mk (_field self) (_surface_subdomain self) (_filename self) (Some v).

(** The property getters. *)
Definition filename (self : t) : pyobj := _filename self.
Definition surface_subdomain (self : t) : pyobj := _surface_subdomain self.
Definition field (self : t) : pyobj := _field self.

(** [@filename.setter]: the [if]/[elif] chain, then the assignment that
    follows it. *)
Definition set_filename (self : t) (value : pyobj) : result t :=
  let* self :=
    if is_None value then Ok (with_filename self PyNone)
    else if negb (isinstance value [Cls_str]) then
      Raise (TypeError "filename must be of type str")
    else
      let* ends := py_endswith value ".csv" in
      if negb ends then Raise (ValueError "filename must end with .csv")
      else Ok self
  in
  Ok (with_filename self value).

(** [@surface_subdomain.setter]. *)
Definition set_surface_subdomain (self : t) (value : pyobj) : result t :=
  if negb (isinstance value [Cls_int; Cls_SurfaceSubdomain1D])
     || isinstance value [Cls_bool]
  then Raise (TypeError "surface should be an int or F.SurfaceSubdomain1D")
  else Ok (with_surface_subdomain self value).

(** [@field.setter]. *)
Definition set_field (self : t) (value : pyobj) : result t :=
  if negb (isinstance value [Cls_Species; Cls_str])
  then Raise (TypeError "field must be of type festim.Species")
  else Ok (with_field self value).

(** The object before [__init__] has assigned anything. *)
Definition fresh : t := mk PyNone PyNone PyNone None.

Definition __init__ (field surface_subdomain filename : pyobj) : result t :=
  let* self := set_field fresh field in
  let* self := set_surface_subdomain self surface_subdomain in
  set_filename self filename.

(** [@property write_to_file]. *)
Definition write_to_file (self : t) : bool :=
  if is_None (filename self) then false else true.

(** [write(t)]: the [with] statement opens the file, the body builds the
    row [[t, self.value]] and writes it, and the file is closed on the way
    out, also when the body raises. *)
Definition write (self : t) (t : R) (fs : FileSystem)
  : result unit * FileSystem :=
  match open_append (filename self) fs with
  | (Raise e, fs) => (Raise e, fs)
  | (Ok file, fs) =>
      match value self with
      | None =>
          (Raise (AttributeError
                    "'SurfaceQuantity' object has no attribute 'value'"),
           close file fs)
      | Some v => (Ok tt, close file (writerow file [t; v] fs))
      end
  end.

End SurfaceQuantity.

(** ** The finite element engine *)

(** A point of the mesh, by its coordinates. *)
Definition point : Type := list R.

(** A scalar UFL expression, by its value at each point. *)
Definition Expr : Type := point -> R.

(** What the exports ask of the engine: [f.assemble(g * dx(id))], written
    [assemble g dx id], and [f.SpatialCoordinate(mesh)[i]].  The laws are
    the two properties of an integral the exports rely on: it only sees the
    values of the integrand, and a constant factor can be taken out. *)
Class Engine : Type := {
  Mesh : Type;
  Measure : Type;
  SpatialCoordinate : Mesh -> nat -> Expr;
  assemble : Expr -> Measure -> Z -> R;
  assemble_ext : forall (g h : Expr) (dx : Measure) (id : Z),
    (forall p, g p = h p) -> assemble g dx id = assemble h dx id;
  assemble_scal : forall (c : R) (g : Expr) (dx : Measure) (id : Z),
    assemble (fun p => c * g p)%R dx id = (c * assemble g dx id)%R
}.

(** A [dolfin] function: the mesh of its function space and its values. *)
Record Function `{Engine} : Type := mkFunction {
  function_space_mesh : Mesh;
  fn_value : Expr
}.

(** The measure of the subdomain [id]: the integral of 1 over it. *)
Definition measure_of `{Engine} (dx : Measure) (id : Z) : R :=
  assemble (fun _ => 1%R) dx id.

(** *** A quadrature rule as an engine *)

(** A quadrature point: where it is, its weight (the share of the volume it
    stands for) and the tag of the cell it lies in. *)
Record QuadPoint : Type := mkQP {
  qp_x : point;
  qp_w : R;
  qp_tag : Z
}.

Fixpoint quad_assemble (g : Expr) (qs : list QuadPoint) (id : Z) : R :=
  match qs with
  | [] => 0%R
  | q :: qs' =>
      ((if Z.eqb (qp_tag q) id then qp_w q * g (qp_x q) else 0)
       + quad_assemble g qs' id)%R
  end.

(** The sum of the weights tagged [id]: the volume of that subdomain. *)
Fixpoint quad_volume (qs : list QuadPoint) (id : Z) : R :=
  match qs with
  | [] => 0%R
  | q :: qs' =>
      ((if Z.eqb (qp_tag q) id then qp_w q else 0) + quad_volume qs' id)%R
  end.

Definition coordinate (i : nat) : Expr := fun p => nth i p 0%R.

Lemma quad_assemble_ext (g h : Expr) (qs : list QuadPoint) (id : Z) :
  (forall p, g p = h p) -> quad_assemble g qs id = quad_assemble h qs id.
Proof.
  intros Hgh. induction qs as [|q qs IH]; simpl; [reflexivity|].
  rewrite IH, (Hgh (qp_x q)). reflexivity.
Qed.

Lemma quad_assemble_scal (c : R) (g : Expr) (qs : list QuadPoint) (id : Z) :
  quad_assemble (fun p => c * g p)%R qs id = (c * quad_assemble g qs id)%R.
Proof.
  induction qs as [|q qs IH]; simpl.
  - ring.
  - rewrite IH. destruct (Z.eqb (qp_tag q) id); ring.
Qed.

Definition quadrature : Engine := {|
  Mesh := list QuadPoint;
  Measure := list QuadPoint;
  SpatialCoordinate := fun _ i => coordinate i;
  assemble := quad_assemble;
  assemble_ext := quad_assemble_ext;
  assemble_scal := quad_assemble_scal
|}.

(** ** [festim/exports/derived_quantities/average_volume.py] *)

(** What the base class [festim.VolumeQuantity] gives its subclasses once
    the simulation is initialised: the field, the volume id, the solution
    function and the volume measure. *)
Module VolumeQuantity.
Record t `{Engine} : Type := mk {
  field : pyobj;
  volume : Z;
  show_units : bool;
  function : Function;
  dx : Measure
}.
End VolumeQuantity.

Module AverageVolume.
Section WithEngine.
Context `{Engine}.
Local Open Scope R_scope.

Definition t : Type := VolumeQuantity.t.

(** [compute()].  ([__init__] only calls the base class, and the [title]
    string plays no part in the value computed; neither is modelled.) *)
Definition compute (self : t) : result R :=
  py_div
    (assemble (fn_value (VolumeQuantity.function self))
              (VolumeQuantity.dx self) (VolumeQuantity.volume self))
    (assemble (fun _ => 1)
              (VolumeQuantity.dx self) (VolumeQuantity.volume self)).
End WithEngine.
End AverageVolume.

Module AverageVolumeCylindrical.
Section WithEngine.
Context `{Engine}.
Local Open Scope R_scope.

Record t : Type := mk {
  super : VolumeQuantity.t;
  r : option Expr;
  z : Expr;
  _azimuth_range : list R
}.

Definition with_r (self : t) (v : option Expr) : t :=
  mk (super self) v (z self) (_azimuth_range self).
Definition with_azimuth_range (self : t) (v : list R) : t :=
  mk (super self) (r self) (z self) v.

Definition azimuth_range (self : t) : list R := _azimuth_range self.

(** [value[0] < 0 or value[1] > 2 * np.pi]: the second operand is
    evaluated only when the first is false. *)
Definition azimuth_out_of_range (value : list R) : result bool :=
  let* v0 := getitem value 0 in
  if Rlt_dec v0 0 then Ok true
  else
    let* v1 := getitem value 1 in
    Ok (if Rgt_dec v1 (2 * PI) then true else false).

(** [@azimuth_range.setter]. *)
Definition set_azimuth_range (self : t) (value : list R) : result t :=
  let* out := azimuth_out_of_range value in
  if out then Raise (ValueError "Azimuthal range must be between 0 and pi")
  else Ok (with_azimuth_range self value).

Definition default_azimuth_range : list R := [0; 2 * PI].

(** [__init__(field, volume, z, azimuth_range)].  [super] is the
    instance as the base class initialiser leaves it; [_azimuth_range]
    has no value before the setter runs, and no instance is returned
    when the setter raises. *)
Definition __init__ (super : VolumeQuantity.t) (z : Expr)
    (azimuth_range : list R) : result t :=
  set_azimuth_range (mk super None z []) azimuth_range.

(** The opening [if self.r is None] of [compute]: the radial coordinate
    in use, and the instance afterwards. *)
Definition cache_r (self : t) : Expr * t :=
  match r self with
  | None =>
      let mesh := function_space_mesh (VolumeQuantity.function (super self)) in
      let rthetaz := SpatialCoordinate mesh in
      (rthetaz 0%nat, with_r self (Some (rthetaz 0%nat)))
  | Some rr => (rr, self)
  end.

(** The span [self.azimuth_range[1] - self.azimuth_range[0]]. *)
Definition azimuth_span (self : t) : result R :=
  let* hi := getitem (azimuth_range self) 1 in
  let* lo := getitem (azimuth_range self) 0 in
  Ok (hi - lo).

(** The rest of [compute], with [self.r] equal to [rr]. *)
Definition compute_with (self : t) (rr : Expr) : result R :=
  let u := fn_value (VolumeQuantity.function (super self)) in
  let dx := VolumeQuantity.dx (super self) in
  let vol_id := VolumeQuantity.volume (super self) in
  let* span := azimuth_span self in
  let values :=
    assemble (fun p => u p * rr p * z self p) dx vol_id * span in
  let* span := azimuth_span self in
  let volume :=
    assemble (fun p => 1 * rr p * z self p) dx vol_id * span in
  let* avg_vol := py_div values volume in
  let* span := azimuth_span self in
  let avg_vol := avg_vol * span in
  Ok avg_vol.

(** [compute()]: the value returned (or the exception raised) and the
    instance afterwards. *)
Definition compute (self : t) : result R * t :=
  let '(rr, self) := cache_r self in
  (compute_with self rr, self).
End WithEngine.
End AverageVolumeCylindrical.

Module AverageVolumeSpherical.
Section WithEngine.
Context `{Engine}.
Local Open Scope R_scope.

Record t : Type := mk {
  super : VolumeQuantity.t;
  r : option Expr;
  _azimuth_range : list R;
  _polar_range : list R
}.

Definition with_r (self : t) (v : option Expr) : t :=
  mk (super self) v (_azimuth_range self) (_polar_range self).
Definition with_azimuth_range (self : t) (v : list R) : t :=
  mk (super self) (r self) v (_polar_range self).
Definition with_polar_range (self : t) (v : list R) : t :=
  mk (super self) (r self) (_azimuth_range self) v.

Definition polar_range (self : t) : list R := _polar_range self.
Definition azimuth_range (self : t) : list R := _azimuth_range self.

(** [value[0] < -np.pi or value[1] > np.pi]. *)
Definition polar_out_of_range (value : list R) : result bool :=
  let* v0 := getitem value 0 in
  if Rlt_dec v0 (- PI) then Ok true
  else
    let* v1 := getitem value 1 in
    Ok (if Rgt_dec v1 PI then true else false).

(** [@polar_range.setter]. *)
Definition set_polar_range (self : t) (value : list R) : result t :=
  let* out := polar_out_of_range value in
  if out then Raise (ValueError "Polar range must be between - pi and pi")
  else Ok (with_polar_range self value).

(** [value[0] < 0 or value[1] > np.pi]. *)
Definition azimuth_out_of_range (value : list R) : result bool :=
  let* v0 := getitem value 0 in
  if Rlt_dec v0 0 then Ok true
  else
    let* v1 := getitem value 1 in
    Ok (if Rgt_dec v1 PI then true else false).

(** [@azimuth_range.setter]. *)
Definition set_azimuth_range (self : t) (value : list R) : result t :=
  let* out := azimuth_out_of_range value in
  if out then Raise (ValueError "Azimuthal range must be between 0 and pi")
  else Ok (with_azimuth_range self value).

Definition default_azimuth_range : list R := [0; PI].
Definition default_polar_range : list R := [- PI; PI].

(** [__init__(field, volume, azimuth_range, polar_range)]. *)
Definition __init__ (super : VolumeQuantity.t)
    (azimuth_range polar_range : list R) : result t :=
  let* self := set_azimuth_range (mk super None [] []) azimuth_range in
  set_polar_range self polar_range.

Definition cache_r (self : t) : Expr * t :=
  match r self with
  | None =>
      let mesh := function_space_mesh (VolumeQuantity.function (super self)) in
      let rthetaphi := SpatialCoordinate mesh in
      (rthetaphi 0%nat, with_r self (Some (rthetaphi 0%nat)))
  | Some rr => (rr, self)
  end.

(** [(self.polar_range[1] - self.polar_range[0])]. *)
Definition polar_span (self : t) : result R :=
  let* hi := getitem (polar_range self) 1 in
  let* lo := getitem (polar_range self) 0 in
  Ok (hi - lo).

(** [(-np.cos(self.azimuth_range[1]) + np.cos(self.azimuth_range[0]))]. *)
Definition azimuth_cos_diff (self : t) : result R :=
  let* hi := getitem (azimuth_range self) 1 in
  let* lo := getitem (azimuth_range self) 0 in
  Ok (- cos hi + cos lo).

(** The rest of [compute], with [self.r] equal to [rr].  The cosines are
    [numpy.float64], and so are both products and their quotient. *)
Definition compute_with (self : t) (rr : Expr) : result npfloat :=
  let u := fn_value (VolumeQuantity.function (super self)) in
  let dx := VolumeQuantity.dx (super self) in
  let vol_id := VolumeQuantity.volume (super self) in
  let* pspan := polar_span self in
  let* acos := azimuth_cos_diff self in
  let values :=
    assemble (fun p => u p * rr p ^ 2) dx vol_id * pspan * acos in
  let* pspan := polar_span self in
  let* acos := azimuth_cos_diff self in
  let volume :=
    assemble (fun p => 1 * rr p ^ 2) dx vol_id * pspan * acos in
  let avg_vol := np_div values volume in
  Ok avg_vol.

Definition compute (self : t) : result npfloat * t :=
  let '(rr, self) := cache_r self in
  (compute_with self rr, self).
End WithEngine.
End AverageVolumeSpherical.

(** ** [FESTIM/exports/derived_quantities_export.py] *)

(** What the base class [FESTIM.DerivedQuantity] gives its subclasses: the
    field, the solution function, and the volume and surface measures. *)
Module DerivedQuantity.
Record t `{Engine} : Type := mk {
  field : pyobj;
  function : Function;
  dx : Measure;
  ds : Measure
}.
End DerivedQuantity.

Module TotalVolume.
Section WithEngine.
Context `{Engine}.

Record t : Type := mk {
  super : DerivedQuantity.t;
  volume : Z
}.

(** [__init__(field, volume)]; [super] is the instance as
    [super().__init__(field)] leaves it.  The [title] string is not
    modelled. *)
Definition __init__ (super : DerivedQuantity.t) (volume : Z) : t :=
  mk super volume.

Definition compute (self : t) : R :=
  assemble (fn_value (DerivedQuantity.function (super self)))
           (DerivedQuantity.dx (super self)) (volume self).
End WithEngine.
End TotalVolume.

Module TotalSurface.
Section WithEngine.
Context `{Engine}.

Record t : Type := mk {
  super : DerivedQuantity.t;
  surface : Z
}.

Definition __init__ (super : DerivedQuantity.t) (surface : Z) : t :=
  mk super surface.

Definition compute (self : t) : R :=
  assemble (fn_value (DerivedQuantity.function (super self)))
           (DerivedQuantity.ds (super self)) (surface self).
End WithEngine.
End TotalSurface.

(** * Notions used in the statements *)

(** [s] ends in [suffix]: it is some prefix followed by [suffix]. *)
Definition ends_in (suffix s : string) : Prop :=
  exists prefix, s = String.append prefix suffix.

(** The rows of a file; a file that does not exist has none. *)
Definition rows_of (fs : FileSystem) (path : string) : list csv_row :=
  default [] (files fs !! path).

(** The file system after calling [write] at each of the times [ts]. *)
Definition write_all (self : SurfaceQuantity.t) (ts : list R)
    (fs : FileSystem) : FileSystem :=
  fold_left (fun fs t => snd (SurfaceQuantity.write self t fs)) ts fs.

(** The range (a, b) lies within the bracket from [lo] to [hi]: both of its
    ends do. *)
Definition lies_within (lo hi a b : R) : Prop :=
  (lo <= a <= hi /\ lo <= b <= hi)%R.



(** The first coordinate of the mesh the solution function lives on. *)
Definition radial_coordinate `{Engine} (super : VolumeQuantity.t) : Expr :=
  SpatialCoordinate (function_space_mesh (VolumeQuantity.function super)) 0.

(** ** A small mesh to evaluate the exports on *)

(** Three quadrature points of weight 1: two in the volume tagged 1, at
    radius 1 and 3, and one in the volume tagged 2. *)
Definition sample_mesh : list QuadPoint :=
  [mkQP [1%R] 1%R 1%Z; mkQP [3%R] 1%R 1%Z; mkQP [5%R] 1%R 2%Z].

(** The solution function that is [c] everywhere on [sample_mesh]. *)
Definition constant_function (c : R) : @Function quadrature :=
  @mkFunction quadrature sample_mesh (fun _ => c).

(** A volume quantity on the volume tagged 1 of [sample_mesh], bound to the
    constant field [c]. *)
Definition sample_quantity (c : R) : @VolumeQuantity.t quadrature :=
  @VolumeQuantity.mk quadrature (PyStr "solute") 1%Z false
                     (constant_function c) sample_mesh.

(** * Further operations of the cited files *)

(** ** The text of a value *)

(** [str(v)], which is also what [format] and an f-string put in place of
    [{}], for the values whose text is fixed by the value alone; floats and
    plain objects are left out. *)
Definition py_str (v : pyobj) : option string :=
  match v with
  | PyNone => Some "None"%string
  | PyBool true => Some "True"%string
  | PyBool false => Some "False"%string
  | PyInt n => Some (pretty n)
  | PyStr s => Some s
  | _ => None
  end.

(** [v == s] for a [str] literal [s]. *)
Definition py_eq_str (v : pyobj) (s : string) : bool :=
  match v with
  | PyStr s' => String.eqb s' s
  | _ => false
  end.

(** [AverageVolume.title], inherited by the cylindrical and spherical
    variants. *)
Definition AverageVolume_title `{Engine} (self : VolumeQuantity.t)
  : option string :=
  match py_str (VolumeQuantity.field self) with
  | Some field =>
      let quantity_title :=
        String.append "Average "
          (String.append field
             (String.append " volume " (pretty (VolumeQuantity.volume self))))
      in
      Some (if VolumeQuantity.show_units self then
              if py_eq_str (VolumeQuantity.field self) "T"
              then String.append quantity_title " (K)"
              else String.append quantity_title " (H m-3)"
            else quantity_title)
  | None => None
  end.

(** The [title] that [TotalVolume.__init__] computes:
    ["Total {} volume {}".format(self.field, self.volume)]. *)
Definition TotalVolume_title `{Engine} (self : TotalVolume.t)
  : option string :=
  match py_str (DerivedQuantity.field (TotalVolume.super self)) with
  | Some field =>
      Some (String.append "Total "
              (String.append field
                 (String.append " volume " (pretty (TotalVolume.volume self)))))
  | None => None
  end.

(** The [title] that [TotalSurface.__init__] computes:
    ["Total {} surface {}".format(self.field, self.surface)]. *)
Definition TotalSurface_title `{Engine} (self : TotalSurface.t)
  : option string :=
  match py_str (DerivedQuantity.field (TotalSurface.super self)) with
  | Some field =>
      Some (String.append "Total "
              (String.append field
                 (String.append " surface "
                    (pretty (TotalSurface.surface self)))))
  | None => None
  end.

(** ** What the [SurfaceQuantity] setters let through *)

Definition is_field (v : pyobj) : Prop :=
  match v with
  | PySpecies _ | PyStr _ => True
  | _ => False
  end.

Definition is_surface (v : pyobj) : Prop :=
  match v with
  | PyInt _ | PySurfaceSubdomain1D _ _ => True
  | _ => False
  end.

Definition is_filename (v : pyobj) : Prop :=
  match v with
  | PyNone => True
  | PyStr s => ends_in ".csv" s
  | _ => False
  end.

Definition sq_well_formed (q : SurfaceQuantity.t) : Prop :=
  is_field (SurfaceQuantity.field q)
  /\ is_surface (SurfaceQuantity.surface_subdomain q)
  /\ is_filename (SurfaceQuantity.filename q).

(** One thing done to an instance through its interface: an assignment to
    one of the three properties that does not raise, or the assignment of
    the computed [value]. *)
Inductive sq_step : SurfaceQuantity.t -> SurfaceQuantity.t -> Prop :=
| sq_assign_field (q q' : SurfaceQuantity.t) (v : pyobj) :
    SurfaceQuantity.set_field q v = Ok q' -> sq_step q q'
| sq_assign_surface (q q' : SurfaceQuantity.t) (v : pyobj) :
    SurfaceQuantity.set_surface_subdomain q v = Ok q' -> sq_step q q'
| sq_assign_filename (q q' : SurfaceQuantity.t) (v : pyobj) :
    SurfaceQuantity.set_filename q v = Ok q' -> sq_step q q'
| sq_assign_value (q : SurfaceQuantity.t) (v : R) :
    sq_step q (SurfaceQuantity.with_value q v).

(** The instances that exist: built by [__init__] and then used. *)
Inductive sq_reachable : SurfaceQuantity.t -> Prop :=
| sq_constructed (field surface filename : pyobj) (q : SurfaceQuantity.t) :
    SurfaceQuantity.__init__ field surface filename = Ok q -> sq_reachable q
| sq_used (q q' : SurfaceQuantity.t) :
    sq_reachable q -> sq_step q q' -> sq_reachable q'.

(** ** Reading a trace of file events *)

Fixpoint remove_first (path : string) (opened : list string) : list string :=
  match opened with
  | [] => []
  | p :: opened' =>
      if String.eqb path p then opened' else p :: remove_first path opened'
  end.

(** The files open after one more event. *)
Definition trace_step (opened : list string) (ev : fs_event) : list string :=
  match ev with
  | EvOpen path _ => path :: opened
  | EvWriteRow _ _ => opened
  | EvClose path => remove_first path opened
  end.

(** The files a trace leaves open. *)
Definition open_handles (tr : list fs_event) : list string :=
  fold_left trace_step tr [].

(** Every row is written to, and every close is of, a file that is open at
    that point, the files in [opened] being open at the start. *)
Fixpoint trace_guarded (opened : list string) (tr : list fs_event) : bool :=
  match tr with
  | [] => true
  | ev :: tr' =>
      match ev with
      | EvOpen _ _ => true
      | EvWriteRow path _ | EvClose path => existsb (String.eqb path) opened
      end
      && trace_guarded (trace_step opened ev) tr'
  end.

(** ** The integrals of the weighted averages *)

(** The two integrals of the cylindrical [compute]. *)
Definition cyl_weighted_field `{Engine} (q : AverageVolumeCylindrical.t) : R :=
  assemble (fun p => fn_value (VolumeQuantity.function
                                 (AverageVolumeCylindrical.super q)) p
                     * fst (AverageVolumeCylindrical.cache_r q) p
                     * AverageVolumeCylindrical.z q p)%R
           (VolumeQuantity.dx (AverageVolumeCylindrical.super q))
           (VolumeQuantity.volume (AverageVolumeCylindrical.super q)).

Definition cyl_weighted_unit `{Engine} (q : AverageVolumeCylindrical.t) : R :=
  assemble (fun p => 1 * fst (AverageVolumeCylindrical.cache_r q) p
                     * AverageVolumeCylindrical.z q p)%R
           (VolumeQuantity.dx (AverageVolumeCylindrical.super q))
           (VolumeQuantity.volume (AverageVolumeCylindrical.super q)).

(** The two integrals of the spherical [compute]. *)
Definition sph_weighted_field `{Engine} (q : AverageVolumeSpherical.t) : R :=
  assemble (fun p => fn_value (VolumeQuantity.function
                                 (AverageVolumeSpherical.super q)) p
                     * fst (AverageVolumeSpherical.cache_r q) p ^ 2)%R
           (VolumeQuantity.dx (AverageVolumeSpherical.super q))
           (VolumeQuantity.volume (AverageVolumeSpherical.super q)).

Definition sph_weighted_unit `{Engine} (q : AverageVolumeSpherical.t) : R :=
  assemble (fun p => 1 * fst (AverageVolumeSpherical.cache_r q) p ^ 2)%R
           (VolumeQuantity.dx (AverageVolumeSpherical.super q))
           (VolumeQuantity.volume (AverageVolumeSpherical.super q)).

(** ** What the angular range setters let through *)

(** A tuple with at least two components, the first not below [lo] and the
    second not above [hi]. *)
Definition range_ok (lo hi : R) (value : list R) : Prop :=
  match value with
  | a :: b :: _ => (lo <= a /\ b <= hi)%R
  | _ => False
  end.

(** One thing done to a cylindrical instance: a range assignment that does
    not raise, a call of [compute], or the assignment of another solution
    function or of another [z]. *)
Inductive cyl_step `{Engine}
  : AverageVolumeCylindrical.t -> AverageVolumeCylindrical.t -> Prop :=
| cyl_assign_range (q q' : AverageVolumeCylindrical.t) (v : list R) :
    AverageVolumeCylindrical.set_azimuth_range q v = Ok q' -> cyl_step q q'
| cyl_compute (q : AverageVolumeCylindrical.t) :
    cyl_step q (snd (AverageVolumeCylindrical.compute q))
| cyl_rebind (q : AverageVolumeCylindrical.t) (super' : VolumeQuantity.t)
    (z' : Expr) :
    cyl_step q
      (AverageVolumeCylindrical.mk super' (AverageVolumeCylindrical.r q) z'
         (AverageVolumeCylindrical._azimuth_range q)).

Inductive cyl_reachable `{Engine} : AverageVolumeCylindrical.t -> Prop :=
| cyl_constructed (super : VolumeQuantity.t) (z : Expr) (range : list R)
    (q : AverageVolumeCylindrical.t) :
    AverageVolumeCylindrical.__init__ super z range = Ok q -> cyl_reachable q
| cyl_used (q q' : AverageVolumeCylindrical.t) :
    cyl_reachable q -> cyl_step q q' -> cyl_reachable q'.

Inductive sph_step `{Engine}
  : AverageVolumeSpherical.t -> AverageVolumeSpherical.t -> Prop :=
| sph_assign_azimuth (q q' : AverageVolumeSpherical.t) (v : list R) :
    AverageVolumeSpherical.set_azimuth_range q v = Ok q' -> sph_step q q'
| sph_assign_polar (q q' : AverageVolumeSpherical.t) (v : list R) :
    AverageVolumeSpherical.set_polar_range q v = Ok q' -> sph_step q q'
| sph_compute (q : AverageVolumeSpherical.t) :
    sph_step q (snd (AverageVolumeSpherical.compute q))
| sph_rebind (q : AverageVolumeSpherical.t) (super' : VolumeQuantity.t) :
    sph_step q
      (AverageVolumeSpherical.mk super' (AverageVolumeSpherical.r q)
         (AverageVolumeSpherical._azimuth_range q)
         (AverageVolumeSpherical._polar_range q)).

Inductive sph_reachable `{Engine} : AverageVolumeSpherical.t -> Prop :=
| sph_constructed (super : VolumeQuantity.t) (azimuth polar : list R)
    (q : AverageVolumeSpherical.t) :
    AverageVolumeSpherical.__init__ super azimuth polar = Ok q ->
    sph_reachable q
| sph_used (q q' : AverageVolumeSpherical.t) :
    sph_reachable q -> sph_step q q' -> sph_reachable q'.

(** ** [test/test_permeation_problem.py] *)

Module test_permeation_problem.

(** [siverts_law(T, S_0, E_S, pressure)], with the constant [F.k_B] as a
    parameter.  [pressure**0.5] is the square root of a pressure that is
    not negative; a negative pressure, for which Python gives a complex
    number, is outside the model. *)
Definition siverts_law (k_B T S_0 E_S pressure : R) : R :=
  let S := (S_0 * exp (- E_S / k_B / T))%R in
  (S * sqrt pressure)%R.

Section Loop.

(** The solution functions, the solver ([my_model.solver.solve(u)], which
    reads the previous solution [u_n] and the current [u] and leaves the new
    solution in [u]) and the post-processing
    ([assemble_scalar(form(D * dot(grad(u), n) * ds(2)))]) belong to the
    engine. *)
Variable U : Type.
Variable solve : U -> U -> U.
Variable flux_of : U -> R.

(** What the loop of [test_permeation_problem] reads and writes: the time,
    the two solution functions, the two lists, the text files written by
    [np.savetxt] and the functions written to the XDMF file. *)
Record state : Type := mkState {
  t : R;
  u : U;
  u_n : U;
  flux_values : list R;
  times : list R;
  txt : gmap string (list R);
  xdmf : list (U * R)
}.

Definition final_time : R := 50.

(** The state when the loop is reached. *)
Definition start (u0 u_n0 : U) (txt0 : gmap string (list R)) : state :=
  mkState 0 u0 u_n0 [] [] txt0 [].

(** One pass through the body of the [while]: the time advances, the solver
    runs, the flux is computed and appended with the time, the two lists are
    saved, the function is written, and the previous solution is overwritten
    with the current one.  (The progress bar is not modelled.) *)
Definition body (dt : R) (s : state) : state :=
  let t := (t s + dt)%R in
  let u := solve (u_n s) (u s) in
  let flux := flux_of u in
  let flux_values := flux_values s ++ [flux] in
  let times := times s ++ [t] in
  let txt := <["outgassing_flux.txt"%string := flux_values]> (txt s) in
  let txt := <["times.txt"%string := times]> txt in
  let xdmf := xdmf s ++ [(u, t)] in
  mkState t u u flux_values times txt xdmf.

(** [while t < final_time: ...], run for at most [fuel] passes. *)
Fixpoint while_loop (fuel : nat) (dt : R) (s : state) : option state :=
  if Rlt_dec (t s) final_time then
    match fuel with
    | O => None
    | S fuel' => while_loop fuel' dt (body dt s)
    end
  else Some s.

End Loop.

End test_permeation_problem.

(** What the lists and the XDMF file of the time loop have in common at any
    point of the loop. *)
Definition series_agree (U : Type) (flux_of : U -> R)
    (s : test_permeation_problem.state U) : Prop :=
  length (test_permeation_problem.flux_values U s)
  = length (test_permeation_problem.times U s)
  /\ map snd (test_permeation_problem.xdmf U s)
     = test_permeation_problem.times U s
  /\ map (fun e => flux_of (fst e)) (test_permeation_problem.xdmf U s)
     = test_permeation_problem.flux_values U s.

(** * Properties *)

(** ** Strings: what [endswith] decides *)

Lemma substring_skip (p s : string) (n : nat) :
  String.substring (String.length p) n (String.append p s)
  = String.substring 0 n s.
Proof. induction p as [|c p IH]; simpl; [reflexivity | exact IH]. Qed.

Lemma substring_all (s : string) :
  String.substring 0 (String.length s) s = s.
Proof. induction s as [|c s IH]; simpl; [reflexivity | now rewrite IH]. Qed.

Lemma substring_split (s : string) :
  forall n m, (n + m)%nat = String.length s ->
  s = String.append (String.substring 0 n s) (String.substring n m s).
Proof.
  induction s as [|c s IH]; intros n m Hlen.
  - destruct n, m; simpl in *; try discriminate; reflexivity.
  - destruct n as [|n].
    + simpl in Hlen. subst m. simpl. now rewrite substring_all.
    + simpl in Hlen. simpl String.substring.
      change (String c s
              = String c (String.append (String.substring 0 n s)
                                        (String.substring n m s))).
      f_equal. apply IH. lia.
Qed.

Lemma length_append (p s : string) :
  String.length (String.append p s) = (String.length p + String.length s)%nat.
Proof. induction p as [|c p IH]; simpl; [reflexivity | now rewrite IH]. Qed.

Lemma endswith_ends_in (s suffix : string) :
  endswith s suffix = true <-> ends_in suffix s.
Proof.
  unfold endswith, ends_in. rewrite andb_true_iff, Nat.leb_le, String.eqb_eq.
  split.
  - intros [Hle Hsub].
    exists (String.substring 0 (String.length s - String.length suffix) s).
    pose proof (substring_split s (String.length s - String.length suffix)
                  (String.length suffix)) as Hs.
    rewrite Hsub in Hs. apply Hs. lia.
  - intros [p ->]. rewrite length_append. split; [lia|].
    replace (String.length p + String.length suffix - String.length suffix)%nat
      with (String.length p) by lia.
    rewrite substring_skip. apply substring_all.
Qed.

(** ** [SurfaceQuantity]: validation at assignment *)



(** C5.  The [surface_subdomain] setter raises [TypeError] for [True] and
    [False], and for every value whose class is neither [int] nor
    [SurfaceSubdomain1D]; every [int] that is not a [bool] and every
    surface subdomain is accepted, and the instance returned holds that
    value as its surface and the field, file name and value it had. *)
Theorem surface_subdomain_setter_validates (self : SurfaceQuantity.t) :
  (forall b, SurfaceQuantity.set_surface_subdomain self (PyBool b)
             = Raise (TypeError "surface should be an int or F.SurfaceSubdomain1D"))
  /\ (forall value,
        type_of value <> Cls_int -> type_of value <> Cls_SurfaceSubdomain1D ->
        SurfaceQuantity.set_surface_subdomain self value
        = Raise (TypeError "surface should be an int or F.SurfaceSubdomain1D"))
  /\ (forall n,
        SurfaceQuantity.set_surface_subdomain self (PyInt n)
        = Ok (SurfaceQuantity.mk (SurfaceQuantity._field self) (PyInt n)
                (SurfaceQuantity._filename self) (SurfaceQuantity.value self)))
  /\ (forall id x,
        SurfaceQuantity.set_surface_subdomain self (PySurfaceSubdomain1D id x)
        = Ok (SurfaceQuantity.mk (SurfaceQuantity._field self)
                (PySurfaceSubdomain1D id x)
                (SurfaceQuantity._filename self) (SurfaceQuantity.value self)))
  /\ (forall value q,
        SurfaceQuantity.set_surface_subdomain self value = Ok q ->
        SurfaceQuantity.surface_subdomain q = value)
  /\ isinstance (PyBool true) [Cls_int] = true.
Proof.
  repeat split.
  - intros value Hint Hsub. unfold SurfaceQuantity.set_surface_subdomain.
    destruct value; simpl in *; try reflexivity; congruence.
  - intros value q. unfold SurfaceQuantity.set_surface_subdomain.
    destruct value; simpl; intros Hset; inversion Hset; reflexivity.
Qed.

Lemma surface_subdomain_setter_validates_witness :
  SurfaceQuantity.set_surface_subdomain
    (SurfaceQuantity.mk (PyStr "H") (PyInt 1) (PyStr "flux.csv") (Some 2%R))
    (PyFloat 1)
  = Raise (TypeError "surface should be an int or F.SurfaceSubdomain1D")
  /\ SurfaceQuantity.set_surface_subdomain
       (SurfaceQuantity.mk (PyStr "H") (PyInt 1) (PyStr "flux.csv") (Some 2%R))
       (PyInt 7)
     = Ok (SurfaceQuantity.mk (PyStr "H") (PyInt 7) (PyStr "flux.csv")
             (Some 2%R))
  /\ SurfaceQuantity.surface_subdomain
       (SurfaceQuantity.mk (PyStr "H") (PySurfaceSubdomain1D 3 0)
          (PyStr "flux.csv") (Some 2%R))
     = PySurfaceSubdomain1D 3 0.
Proof.
  destruct (surface_subdomain_setter_validates
              (SurfaceQuantity.mk (PyStr "H") (PyInt 1) (PyStr "flux.csv")
                 (Some 2%R)))
    as (_ & Hrefuse & Hint & _ & Hstored & _).
  split; [|split].
  - apply Hrefuse; simpl; discriminate.
  - apply Hint.
  - apply (Hstored (PySurfaceSubdomain1D 3 0)). reflexivity.
Defined.

(** ** [SurfaceQuantity]: the CSV export *)

Lemma open_append_keeps_rows (path : string) (fs : FileSystem) :
  rows_of (snd (open_append (PyStr path) fs)) path = rows_of fs path.
Proof. unfold rows_of; simpl. now rewrite lookup_insert_eq. Qed.

Lemma open_append_frame (path other : string) (fs : FileSystem) :
  other <> path ->
  files (snd (open_append (PyStr path) fs)) !! other = files fs !! other.
Proof. intros Hne; simpl. now rewrite lookup_insert_ne. Qed.

(** C6 (as amended).  With a file name configured and the [value]
    attribute assigned, [write(t)]
    opens that file for appending, writes the one row [(t, value)] after the
    rows already there, and closes the file: one open, one row, one close.
    No other file changes. *)
Theorem write_appends_one_row (self : SurfaceQuantity.t) (t : R)
    (fs : FileSystem) (name : string) (v : R) :
  SurfaceQuantity.filename self = PyStr name ->
  SurfaceQuantity.value self = Some v ->
  exists fs',
    SurfaceQuantity.write self t fs = (Ok tt, fs')
    /\ files fs' !! name = Some (rows_of fs name ++ [[t; v]])
    /\ (forall other, other <> name -> files fs' !! other = files fs !! other)
    /\ trace fs' = trace fs
                   ++ [EvOpen name "a"; EvWriteRow name [t; v]; EvClose name].
Proof.
  intros Hname Hvalue. unfold SurfaceQuantity.write.
  rewrite Hname, Hvalue; simpl.
  eexists; split; [reflexivity|]. simpl. split; [|split].
  - rewrite lookup_insert_eq. f_equal. unfold rows_of.
    now rewrite lookup_insert_eq.
  - intros other Hne. now rewrite !lookup_insert_ne by congruence.
  - now rewrite <- !app_assoc.
Qed.

Lemma write_appends_one_row_witness :
  exists fs',
    SurfaceQuantity.write
      (SurfaceQuantity.mk (PyStr "H") (PyInt 1) (PyStr "flux.csv") (Some 2%R))
      1%R (mkFS {[ "flux.csv"%string := [[0%R; 5%R]] ]} [])
    = (Ok tt, fs')
    /\ files fs' !! "flux.csv"%string = Some [[0%R; 5%R]; [1%R; 2%R]].
Proof.
  destruct (write_appends_one_row
              (SurfaceQuantity.mk (PyStr "H") (PyInt 1) (PyStr "flux.csv")
                                  (Some 2%R))
              1%R (mkFS {[ "flux.csv"%string := [[0%R; 5%R]] ]} [])
              "flux.csv"%string 2%R eq_refl eq_refl)
    as (fs' & Hrun & Hrows & _).
  exists fs'. split; [exact Hrun|].
  etransitivity; [exact Hrows|].
  unfold rows_of; simpl. now rewrite lookup_singleton_eq.
Defined.

(** C6, as stated, fails on the instances the constructor returns: these
    have a file name but no [value] ([__init__] assigns none), and on them
    [write(t)] raises [AttributeError] and leaves the rows of the file as
    they were. *)
Lemma write_after_construction_appends_nothing :
  SurfaceQuantity.__init__ (PyStr "H") (PyInt 1) (PyStr "flux.csv")
    = Ok (SurfaceQuantity.mk (PyStr "H") (PyInt 1) (PyStr "flux.csv") None)
  /\ fst (SurfaceQuantity.write
            (SurfaceQuantity.mk (PyStr "H") (PyInt 1) (PyStr "flux.csv") None)
            1%R (mkFS {[ "flux.csv"%string := [[0%R; 5%R]] ]} []))
     = Raise (AttributeError
                "'SurfaceQuantity' object has no attribute 'value'")
  /\ files (snd (SurfaceQuantity.write
                   (SurfaceQuantity.mk (PyStr "H") (PyInt 1)
                      (PyStr "flux.csv") None)
                   1%R (mkFS {[ "flux.csv"%string := [[0%R; 5%R]] ]} [])))
       !! "flux.csv"%string
     = Some [[0%R; 5%R]].
Proof.
  split; [reflexivity|]. split; [reflexivity|].
  simpl. rewrite lookup_insert_eq, lookup_singleton_eq. reflexivity.
Qed.

(** When [value] was never assigned, the file is still opened (and so
    created) and closed, but no row is written and the call fails. *)
Lemma write_without_value (self : SurfaceQuantity.t) (t : R)
    (fs : FileSystem) (name : string) :
  SurfaceQuantity.filename self = PyStr name ->
  SurfaceQuantity.value self = None ->
  exists e fs',
    SurfaceQuantity.write self t fs = (Raise e, fs')
    /\ rows_of fs' name = rows_of fs name
    /\ trace fs' = trace fs ++ [EvOpen name "a"; EvClose name].
Proof.
  intros Hname Hvalue. unfold SurfaceQuantity.write.
  rewrite Hname, Hvalue; simpl.
  do 2 eexists; split; [reflexivity|]. split.
  - unfold rows_of; simpl. now rewrite lookup_insert_eq.
  - simpl. now rewrite <- app_assoc.
Qed.

(** C8.  [write_to_file] is [False] exactly when the file name is [None]
    and [True] otherwise.  With the file name [None], [write(t)] raises
    before anything is opened or written, so whatever the number of calls
    the file system stays as it was. *)
Theorem no_filename_no_file_access (self : SurfaceQuantity.t) :
  (SurfaceQuantity.write_to_file self = false
   <-> SurfaceQuantity.filename self = PyNone)
  /\ (SurfaceQuantity.write_to_file self = true
      <-> SurfaceQuantity.filename self <> PyNone)
  /\ (SurfaceQuantity.filename self = PyNone ->
      (forall t fs, exists e, SurfaceQuantity.write self t fs = (Raise e, fs))
      /\ (forall ts fs, write_all self ts fs = fs)).
Proof.
  unfold SurfaceQuantity.write_to_file.
  split; [|split].
  - destruct (SurfaceQuantity.filename self); simpl; split;
      intros; congruence.
  - destruct (SurfaceQuantity.filename self); simpl; split;
      intros; congruence.
  - intros Hnone.
    assert (Hw : forall t fs,
               SurfaceQuantity.write self t fs
               = (Raise (TypeError
                    "expected str, bytes or os.PathLike object, not NoneType"),
                  fs)).
    { intros t fs. unfold SurfaceQuantity.write. now rewrite Hnone. }
    split.
    + intros t fs. eexists. apply Hw.
    + intros ts. unfold write_all.
      induction ts as [|t ts IH]; intros fs; simpl; [reflexivity|].
      rewrite Hw; simpl. apply IH.
Qed.

Lemma no_filename_no_file_access_witness :
  write_all (SurfaceQuantity.mk (PyStr "H") (PyInt 1) PyNone (Some 2%R))
            [0%R; 1%R] (mkFS {[ "flux.csv"%string := [[0%R; 5%R]] ]} [])
  = mkFS {[ "flux.csv"%string := [[0%R; 5%R]] ]} [].
Proof.
  apply (no_filename_no_file_access
           (SurfaceQuantity.mk (PyStr "H") (PyInt 1) PyNone (Some 2%R))).
  reflexivity.
Defined.

(** ** Integrals of constant fields *)

Lemma py_div_ok (x y : R) : y <> 0%R -> py_div x y = Ok (x / y)%R.
Proof. intros Hy. unfold py_div. now destruct (Req_dec_T y 0). Qed.

Lemma np_div_ok (x y : R) : y <> 0%R -> np_div x y = Finite (x / y)%R.
Proof. intros Hy. unfold np_div. now destruct (Req_dec_T y 0). Qed.

Section ConstantField.
Context `{Engine}.
Local Open Scope R_scope.

(** A constant factor of the integrand comes out of the integral. *)
Lemma assemble_constant_field (u w : Expr) (c : R) (dx : Measure) (id : Z) :
  (forall p, u p = c) ->
  assemble (fun p => u p * w p) dx id = c * assemble (fun p => 1 * w p) dx id.
Proof.
  intros Hu. rewrite <- assemble_scal. apply assemble_ext.
  intros p. rewrite Hu. ring.
Qed.

Lemma assemble_constant_field2 (u w1 w2 : Expr) (c : R) (dx : Measure)
    (id : Z) :
  (forall p, u p = c) ->
  assemble (fun p => u p * w1 p * w2 p) dx id
  = c * assemble (fun p => 1 * w1 p * w2 p) dx id.
Proof.
  intros Hu. rewrite <- assemble_scal. apply assemble_ext.
  intros p. rewrite Hu. ring.
Qed.

Lemma assemble_constant (u : Expr) (c : R) (dx : Measure) (id : Z) :
  (forall p, u p = c) -> assemble u dx id = c * measure_of dx id.
Proof.
  intros Hu. unfold measure_of. rewrite <- assemble_scal. apply assemble_ext.
  intros p. rewrite Hu. ring.
Qed.

(** What the cylindrical [compute] returns on a constant field: the
    constant times the azimuthal span. *)
Lemma cylindrical_compute_constant (self : AverageVolumeCylindrical.t)
    (c span : R) :
  (forall p, fn_value (VolumeQuantity.function
                         (AverageVolumeCylindrical.super self)) p = c) ->
  AverageVolumeCylindrical.azimuth_span self = Ok span ->
  assemble (fun p => 1 * fst (AverageVolumeCylindrical.cache_r self) p
                       * AverageVolumeCylindrical.z self p)
           (VolumeQuantity.dx (AverageVolumeCylindrical.super self))
           (VolumeQuantity.volume (AverageVolumeCylindrical.super self))
  * span <> 0 ->
  fst (AverageVolumeCylindrical.compute self) = Ok (c * span).
Proof.
  intros Hu Hspan Hvol. unfold AverageVolumeCylindrical.compute.
  assert (Hsame : AverageVolumeCylindrical.azimuth_span
                    (snd (AverageVolumeCylindrical.cache_r self)) = Ok span).
  { unfold AverageVolumeCylindrical.cache_r.
    destruct (AverageVolumeCylindrical.r self); exact Hspan. }
  assert (Hsuper : AverageVolumeCylindrical.super
                     (snd (AverageVolumeCylindrical.cache_r self))
                   = AverageVolumeCylindrical.super self).
  { unfold AverageVolumeCylindrical.cache_r.
    destruct (AverageVolumeCylindrical.r self); reflexivity. }
  assert (Hz : AverageVolumeCylindrical.z
                 (snd (AverageVolumeCylindrical.cache_r self))
               = AverageVolumeCylindrical.z self).
  { unfold AverageVolumeCylindrical.cache_r.
    destruct (AverageVolumeCylindrical.r self); reflexivity. }
  destruct (AverageVolumeCylindrical.cache_r self) as [rr self'] eqn:Hcache.
  simpl in *. unfold AverageVolumeCylindrical.compute_with.
  rewrite Hsame, Hsuper, Hz; simpl.
  rewrite (assemble_constant_field2 _ rr _ c) by exact Hu.
  rewrite py_div_ok by exact Hvol. simpl. f_equal.
  field. split; intros H0; apply Hvol; rewrite H0; ring.
Qed.

End ConstantField.

Lemma quad_measure_is_volume (qs : list QuadPoint) (id : Z) :
  @measure_of quadrature qs id = quad_volume qs id.
Proof.
  unfold measure_of; simpl.
  induction qs as [|q qs IH]; simpl; [reflexivity|].
  rewrite IH. destruct (Z.eqb (qp_tag q) id); ring.
Qed.

(** ** The averages *)

(** C1.  On the constant field 1, with the default azimuth range (0, 2 pi),
    the cylindrical [compute] returns 2 pi and not 1: after dividing the two
    integrals, in which the span cancels, the result is multiplied by the
    span once more. *)
Theorem cylindrical_average_scaled_by_span :
  (let* self := @AverageVolumeCylindrical.__init__ quadrature
                  (sample_quantity 1) (fun _ => 1%R)
                  AverageVolumeCylindrical.default_azimuth_range in
   fst (AverageVolumeCylindrical.compute self))
  = Ok (1 * (2 * PI - 0))%R
  /\ (1 * (2 * PI - 0) <> 1)%R.
Proof.
  pose proof PI2_1 as Hpi.
  split; [|lra].
  assert (Hinit :
    @AverageVolumeCylindrical.__init__ quadrature (sample_quantity 1)
      (fun _ => 1%R) AverageVolumeCylindrical.default_azimuth_range
    = Ok (AverageVolumeCylindrical.mk (sample_quantity 1) None (fun _ => 1%R)
            [0; 2 * PI]%R)).
  { unfold AverageVolumeCylindrical.__init__,
      AverageVolumeCylindrical.set_azimuth_range,
      AverageVolumeCylindrical.azimuth_out_of_range,
      AverageVolumeCylindrical.default_azimuth_range; simpl.
    destruct (Rlt_dec 0 0) as [Hlt|_]; [lra|].
    destruct (Rgt_dec (2 * PI) (2 * PI)) as [Hgt|_]; [lra|]. reflexivity. }
  rewrite Hinit. unfold bind.
  apply cylindrical_compute_constant.
  - reflexivity.
  - reflexivity.
  - simpl. unfold coordinate; simpl. lra.
Qed.

(** C2.  [AverageVolume.compute] is the integral of the field over the
    subdomain divided by the integral of 1 over it.  On a field equal to [c]
    everywhere and a subdomain of non-zero measure it returns [c], whatever
    the engine, the measure and the subdomain.  The spherical variant, whose
    two integrals carry the weight [r^2] and the same angular factors, also
    returns [c] when its volume is not zero. *)
Theorem average_of_constant_field `{Engine} :
  (forall self : AverageVolume.t,
      AverageVolume.compute self
      = py_div (assemble (fn_value (VolumeQuantity.function self))
                         (VolumeQuantity.dx self) (VolumeQuantity.volume self))
               (measure_of (VolumeQuantity.dx self)
                           (VolumeQuantity.volume self)))
  /\ (forall (self : AverageVolume.t) (c : R),
        (forall p, fn_value (VolumeQuantity.function self) p = c) ->
        measure_of (VolumeQuantity.dx self) (VolumeQuantity.volume self)
          <> 0%R ->
        AverageVolume.compute self = Ok c)
  /\ (forall (self : AverageVolumeSpherical.t) (c pspan acos : R),
        (forall p, fn_value (VolumeQuantity.function
                               (AverageVolumeSpherical.super self)) p = c) ->
        AverageVolumeSpherical.polar_span self = Ok pspan ->
        AverageVolumeSpherical.azimuth_cos_diff self = Ok acos ->
        (assemble (fun p => 1 * fst (AverageVolumeSpherical.cache_r self) p ^ 2)
                  (VolumeQuantity.dx (AverageVolumeSpherical.super self))
                  (VolumeQuantity.volume (AverageVolumeSpherical.super self))
         * pspan * acos <> 0)%R ->
        fst (AverageVolumeSpherical.compute self) = Ok (Finite c)).
Proof.
  split; [reflexivity|]. split.
  - intros self c Hu Hm. unfold AverageVolume.compute.
    rewrite (assemble_constant _ c) by exact Hu.
    fold (measure_of (VolumeQuantity.dx self) (VolumeQuantity.volume self)).
    rewrite py_div_ok by exact Hm. f_equal. now field.
  - intros self c pspan acos Hu Hp Ha Hvol.
    unfold AverageVolumeSpherical.compute.
    assert (Hsame :
      AverageVolumeSpherical.polar_span
        (snd (AverageVolumeSpherical.cache_r self)) = Ok pspan
      /\ AverageVolumeSpherical.azimuth_cos_diff
           (snd (AverageVolumeSpherical.cache_r self)) = Ok acos
      /\ AverageVolumeSpherical.super
           (snd (AverageVolumeSpherical.cache_r self))
         = AverageVolumeSpherical.super self).
    { unfold AverageVolumeSpherical.cache_r.
      destruct (AverageVolumeSpherical.r self); auto. }
    destruct Hsame as (Hp' & Ha' & Hsuper).
    destruct (AverageVolumeSpherical.cache_r self) as [rr self'] eqn:Hcache.
    cbn [fst snd] in *. unfold AverageVolumeSpherical.compute_with.
    rewrite Hp', Ha', Hsuper; cbn [bind].
    rewrite (assemble_constant_field _ (fun p => rr p ^ 2)%R c) by exact Hu.
    rewrite np_div_ok by exact Hvol.
    apply (f_equal (fun x => Ok (Finite x))).
    field. repeat split; intros H0; apply Hvol; rewrite H0; ring.
Qed.

Lemma average_of_constant_field_witness :
  @AverageVolume.compute quadrature (sample_quantity 7) = Ok 7%R
  /\ fst (@AverageVolumeSpherical.compute quadrature
            (AverageVolumeSpherical.mk (sample_quantity 7) None
               [0; PI / 2] [0; 1])%R)
     = Ok (Finite 7%R).
Proof.
  destruct (@average_of_constant_field quadrature) as (_ & Hflat & Hsph).
  split.
  - apply Hflat; [reflexivity|].
    rewrite quad_measure_is_volume; simpl. lra.
  - apply (Hsph _ 7%R (1 - 0)%R (- cos (PI / 2) + cos 0)%R);
      [reflexivity | reflexivity | reflexivity |].
    simpl. unfold coordinate; simpl. rewrite cos_PI2, cos_0. lra.
Defined.

(** C7.  [TotalVolume.compute] is the integral of the field over the volume
    subdomain, with no weight; on a field equal to 1 everywhere it is the
    measure of the subdomain, which for a quadrature rule is the sum of the
    weights of its points. *)
Theorem total_volume_of_unit_field `{Engine} :
  (forall self : TotalVolume.t,
      TotalVolume.compute self
      = assemble (fn_value (DerivedQuantity.function (TotalVolume.super self)))
                 (DerivedQuantity.dx (TotalVolume.super self))
                 (TotalVolume.volume self))
  /\ (forall self : TotalVolume.t,
        (forall p, fn_value (DerivedQuantity.function
                               (TotalVolume.super self)) p = 1%R) ->
        TotalVolume.compute self
        = measure_of (DerivedQuantity.dx (TotalVolume.super self))
                     (TotalVolume.volume self))
  /\ (forall self : @TotalVolume.t quadrature,
        (forall p, fn_value (DerivedQuantity.function
                               (TotalVolume.super self)) p = 1%R) ->
        TotalVolume.compute self
        = quad_volume (DerivedQuantity.dx (TotalVolume.super self))
                      (TotalVolume.volume self)).
Proof.
  split; [reflexivity|]. split.
  - intros self Hone. unfold TotalVolume.compute, measure_of.
    apply assemble_ext. exact Hone.
  - intros self Hone. rewrite <- quad_measure_is_volume.
    unfold TotalVolume.compute, measure_of.
    apply (@assemble_ext quadrature). exact Hone.
Qed.

Lemma total_volume_of_unit_field_witness :
  @TotalVolume.compute quadrature
    (TotalVolume.__init__
       (@DerivedQuantity.mk quadrature (PyStr "solute") (constant_function 1)
                            sample_mesh sample_mesh)
       1%Z)
  = 2%R.
Proof.
  destruct (@total_volume_of_unit_field quadrature) as (_ & _ & Hquad).
  rewrite Hquad; [simpl; lra | reflexivity].
Defined.

(** ** The angular ranges *)

(** Decide the two comparisons of a range check. *)
Ltac range_check :=
  cbn [getitem nth_error bind];
  repeat match goal with
         | |- context [Rlt_dec ?x ?y] => destruct (Rlt_dec x y)
         | |- context [Rgt_dec ?x ?y] => destruct (Rgt_dec x y)
         end;
  cbn [bind].

Section AngularRanges.
Context `{Engine}.
Local Open Scope R_scope.

Lemma cylindrical_azimuth_check (a b : R) :
  AverageVolumeCylindrical.azimuth_out_of_range [a; b]
  = Ok (if Rlt_dec a 0 then true else if Rgt_dec b (2 * PI) then true else false).
Proof. unfold AverageVolumeCylindrical.azimuth_out_of_range. now range_check. Qed.

Lemma spherical_azimuth_check (a b : R) :
  AverageVolumeSpherical.azimuth_out_of_range [a; b]
  = Ok (if Rlt_dec a 0 then true else if Rgt_dec b PI then true else false).
Proof. unfold AverageVolumeSpherical.azimuth_out_of_range. now range_check. Qed.

Lemma spherical_polar_check (a b : R) :
  AverageVolumeSpherical.polar_out_of_range [a; b]
  = Ok (if Rlt_dec a (- PI) then true else if Rgt_dec b PI then true else false).
Proof. unfold AverageVolumeSpherical.polar_out_of_range. now range_check. Qed.

Lemma cylindrical_azimuth_accepted (self : AverageVolumeCylindrical.t)
    (a b : R) :
  0 <= a -> b <= 2 * PI ->
  AverageVolumeCylindrical.set_azimuth_range self [a; b]
  = Ok (AverageVolumeCylindrical.with_azimuth_range self [a; b]).
Proof.
  intros Ha Hb. unfold AverageVolumeCylindrical.set_azimuth_range.
  rewrite cylindrical_azimuth_check. range_check; try reflexivity; lra.
Qed.

Lemma cylindrical_azimuth_rejected (self : AverageVolumeCylindrical.t)
    (a b : R) :
  a < 0 \/ 2 * PI < b ->
  AverageVolumeCylindrical.set_azimuth_range self [a; b]
  = Raise (ValueError "Azimuthal range must be between 0 and pi").
Proof.
  intros Hab. unfold AverageVolumeCylindrical.set_azimuth_range.
  rewrite cylindrical_azimuth_check. range_check; try reflexivity; lra.
Qed.

Lemma spherical_azimuth_accepted (self : AverageVolumeSpherical.t) (a b : R) :
  0 <= a -> b <= PI ->
  AverageVolumeSpherical.set_azimuth_range self [a; b]
  = Ok (AverageVolumeSpherical.with_azimuth_range self [a; b]).
Proof.
  intros Ha Hb. unfold AverageVolumeSpherical.set_azimuth_range.
  rewrite spherical_azimuth_check. range_check; try reflexivity; lra.
Qed.

Lemma spherical_azimuth_rejected (self : AverageVolumeSpherical.t) (a b : R) :
  a < 0 \/ PI < b ->
  AverageVolumeSpherical.set_azimuth_range self [a; b]
  = Raise (ValueError "Azimuthal range must be between 0 and pi").
Proof.
  intros Hab. unfold AverageVolumeSpherical.set_azimuth_range.
  rewrite spherical_azimuth_check. range_check; try reflexivity; lra.
Qed.

Lemma spherical_polar_accepted (self : AverageVolumeSpherical.t) (a b : R) :
  - PI <= a -> b <= PI ->
  AverageVolumeSpherical.set_polar_range self [a; b]
  = Ok (AverageVolumeSpherical.with_polar_range self [a; b]).
Proof.
  intros Ha Hb. unfold AverageVolumeSpherical.set_polar_range.
  rewrite spherical_polar_check. range_check; try reflexivity; lra.
Qed.

Lemma spherical_polar_rejected (self : AverageVolumeSpherical.t) (a b : R) :
  a < - PI \/ PI < b ->
  AverageVolumeSpherical.set_polar_range self [a; b]
  = Raise (ValueError "Polar range must be between - pi and pi").
Proof.
  intros Hab. unfold AverageVolumeSpherical.set_polar_range.
  rewrite spherical_polar_check. range_check; try reflexivity; lra.
Qed.

(** For a range given in order, leaving the bracket is what the two
    comparisons of a setter detect. *)
Lemma ordered_range_leaves (lo hi a b : R) :
  a <= b -> (a < lo \/ hi < b <-> ~ lies_within lo hi a b).
Proof. intros Hab. unfold lies_within. split; intros Hout; lra. Qed.

Lemma cylindrical_azimuth_raises_iff (self : AverageVolumeCylindrical.t)
    (a b : R) :
  AverageVolumeCylindrical.set_azimuth_range self [a; b]
    = Raise (ValueError "Azimuthal range must be between 0 and pi")
  <-> a < 0 \/ 2 * PI < b.
Proof.
  split; [|apply cylindrical_azimuth_rejected].
  intros Hraise. destruct (Rlt_dec a 0); [now left|].
  destruct (Rlt_dec (2 * PI) b); [now right|].
  rewrite cylindrical_azimuth_accepted in Hraise by lra. discriminate Hraise.
Qed.

Lemma spherical_azimuth_raises_iff (self : AverageVolumeSpherical.t)
    (a b : R) :
  AverageVolumeSpherical.set_azimuth_range self [a; b]
    = Raise (ValueError "Azimuthal range must be between 0 and pi")
  <-> a < 0 \/ PI < b.
Proof.
  split; [|apply spherical_azimuth_rejected].
  intros Hraise. destruct (Rlt_dec a 0); [now left|].
  destruct (Rlt_dec PI b); [now right|].
  rewrite spherical_azimuth_accepted in Hraise by lra. discriminate Hraise.
Qed.

Lemma spherical_polar_raises_iff (self : AverageVolumeSpherical.t)
    (a b : R) :
  AverageVolumeSpherical.set_polar_range self [a; b]
    = Raise (ValueError "Polar range must be between - pi and pi")
  <-> a < - PI \/ PI < b.
Proof.
  split; [|apply spherical_polar_rejected].
  intros Hraise. destruct (Rlt_dec a (- PI)); [now left|].
  destruct (Rlt_dec PI b); [now right|].
  rewrite spherical_polar_accepted in Hraise by lra. discriminate Hraise.
Qed.

End AngularRanges.

(** C3, as stated, fails: the range (9, 1) does not lie within [0, 2 pi]
    (9 is above 2 pi), and the cylindrical setter accepts it, because it
    compares the first component with 0 and the second with 2 pi only. *)
Lemma angular_range_outside_bracket_accepted :
  ~ lies_within 0 (2 * PI) 9 1
  /\ @AverageVolumeCylindrical.set_azimuth_range quadrature
       (AverageVolumeCylindrical.mk (sample_quantity 1) None (fun _ => 1%R)
          [0; 2 * PI]%R)
       [9; 1]%R
     = Ok (AverageVolumeCylindrical.mk (sample_quantity 1) None
             (fun _ => 1%R) [9; 1]%R)
  /\ @AverageVolumeCylindrical.set_azimuth_range quadrature
       (AverageVolumeCylindrical.mk (sample_quantity 1) None (fun _ => 1%R)
          [0; 2 * PI]%R)
       [9; 1]%R
     <> Raise (ValueError "Azimuthal range must be between 0 and pi").
Proof.
  pose proof PI_4 as Hpi4. pose proof PI2_1 as Hpi2.
  assert (Haccepted :
    @AverageVolumeCylindrical.set_azimuth_range quadrature
      (AverageVolumeCylindrical.mk (sample_quantity 1) None (fun _ => 1%R)
         [0; 2 * PI]%R)
      [9; 1]%R
    = Ok (AverageVolumeCylindrical.mk (sample_quantity 1) None
            (fun _ => 1%R) [9; 1]%R)).
  { apply (@cylindrical_azimuth_accepted quadrature); lra. }
  split; [|split].
  - unfold lies_within. lra.
  - exact Haccepted.
  - rewrite Haccepted. discriminate.
Qed.

(** C3 (as amended).  Each angular range setter raises [ValueError] exactly
    when the first component of the range (a, b) is below the lower end of
    its bracket or the second is above its upper end: [0, 2 pi] for the
    cylindrical azimuth, [0, pi] for the spherical azimuth, [-pi, pi] for
    the spherical polar angle.  For a range given in order ([a <= b]) that
    is exactly when the range leaves the bracket.  Otherwise the instance
    returned holds the range as given and every other attribute as it was.
    So the cylindrical setter refuses (-0.1, pi) and accepts (0, 2 pi). *)
Theorem angular_range_setters_compare_ends `{Engine}
    (cyl : AverageVolumeCylindrical.t) (sph : AverageVolumeSpherical.t)
    (a b : R) :
  ((AverageVolumeCylindrical.set_azimuth_range cyl [a; b]
    = Raise (ValueError "Azimuthal range must be between 0 and pi")
    <-> (a < 0 \/ 2 * PI < b)%R)
   /\ ((0 <= a)%R -> (b <= 2 * PI)%R ->
       AverageVolumeCylindrical.set_azimuth_range cyl [a; b]
       = Ok (AverageVolumeCylindrical.mk
               (AverageVolumeCylindrical.super cyl)
               (AverageVolumeCylindrical.r cyl)
               (AverageVolumeCylindrical.z cyl) [a; b]))
   /\ ((a <= b)%R ->
       (AverageVolumeCylindrical.set_azimuth_range cyl [a; b]
        = Raise (ValueError "Azimuthal range must be between 0 and pi")
        <-> ~ lies_within 0 (2 * PI) a b)))
  /\ ((AverageVolumeSpherical.set_azimuth_range sph [a; b]
       = Raise (ValueError "Azimuthal range must be between 0 and pi")
       <-> (a < 0 \/ PI < b)%R)
      /\ ((0 <= a)%R -> (b <= PI)%R ->
          AverageVolumeSpherical.set_azimuth_range sph [a; b]
          = Ok (AverageVolumeSpherical.mk
                  (AverageVolumeSpherical.super sph)
                  (AverageVolumeSpherical.r sph) [a; b]
                  (AverageVolumeSpherical._polar_range sph)))
      /\ ((a <= b)%R ->
          (AverageVolumeSpherical.set_azimuth_range sph [a; b]
           = Raise (ValueError "Azimuthal range must be between 0 and pi")
           <-> ~ lies_within 0 PI a b)))
  /\ ((AverageVolumeSpherical.set_polar_range sph [a; b]
       = Raise (ValueError "Polar range must be between - pi and pi")
       <-> (a < - PI \/ PI < b)%R)
      /\ ((- PI <= a)%R -> (b <= PI)%R ->
          AverageVolumeSpherical.set_polar_range sph [a; b]
          = Ok (AverageVolumeSpherical.mk
                  (AverageVolumeSpherical.super sph)
                  (AverageVolumeSpherical.r sph)
                  (AverageVolumeSpherical._azimuth_range sph) [a; b]))
      /\ ((a <= b)%R ->
          (AverageVolumeSpherical.set_polar_range sph [a; b]
           = Raise (ValueError "Polar range must be between - pi and pi")
           <-> ~ lies_within (- PI) PI a b)))
  /\ AverageVolumeCylindrical.set_azimuth_range cyl [- (1 / 10); PI]%R
     = Raise (ValueError "Azimuthal range must be between 0 and pi")
  /\ AverageVolumeCylindrical.set_azimuth_range cyl [0; 2 * PI]%R
     = Ok (AverageVolumeCylindrical.mk
             (AverageVolumeCylindrical.super cyl)
             (AverageVolumeCylindrical.r cyl)
             (AverageVolumeCylindrical.z cyl) [0; 2 * PI]%R).
Proof.
  split; [|split; [|split; [|split]]].
  - split; [apply cylindrical_azimuth_raises_iff|]. split.
    + apply cylindrical_azimuth_accepted.
    + intros Hab. rewrite cylindrical_azimuth_raises_iff.
      now apply ordered_range_leaves.
  - split; [apply spherical_azimuth_raises_iff|]. split.
    + apply spherical_azimuth_accepted.
    + intros Hab. rewrite spherical_azimuth_raises_iff.
      now apply ordered_range_leaves.
  - split; [apply spherical_polar_raises_iff|]. split.
    + apply spherical_polar_accepted.
    + intros Hab. rewrite spherical_polar_raises_iff.
      now apply ordered_range_leaves.
  - apply cylindrical_azimuth_rejected. left. lra.
  - apply cylindrical_azimuth_accepted; lra.
Qed.

Lemma angular_range_setters_compare_ends_witness :
  @AverageVolumeCylindrical.set_azimuth_range quadrature
    (AverageVolumeCylindrical.mk (sample_quantity 1) None (fun _ => 1%R) [])
    [PI / 2; PI]%R
  = Ok (AverageVolumeCylindrical.mk (sample_quantity 1) None (fun _ => 1%R)
          [PI / 2; PI]%R)
  /\ @AverageVolumeSpherical.set_azimuth_range quadrature
       (AverageVolumeSpherical.mk (sample_quantity 1) None [] [0; 1]%R)
       [0; PI / 2]%R
     = Ok (AverageVolumeSpherical.mk (sample_quantity 1) None
             [0; PI / 2]%R [0; 1]%R)
  /\ @AverageVolumeSpherical.set_polar_range quadrature
       (AverageVolumeSpherical.mk (sample_quantity 1) None [0; 1]%R [])
       [- PI; 0]%R
     = Ok (AverageVolumeSpherical.mk (sample_quantity 1) None [0; 1]%R
             [- PI; 0]%R)
  /\ (@AverageVolumeSpherical.set_polar_range quadrature
        (AverageVolumeSpherical.mk (sample_quantity 1) None [] [])
        [PI / 2; 2 * PI]%R
      = Raise (ValueError "Polar range must be between - pi and pi")
      <-> ~ lies_within (- PI) PI (PI / 2) (2 * PI)).
Proof.
  pose proof PI_RGT_0 as Hpi.
  destruct (@angular_range_setters_compare_ends quadrature
              (AverageVolumeCylindrical.mk (sample_quantity 1) None
                 (fun _ => 1%R) [])
              (AverageVolumeSpherical.mk (sample_quantity 1) None [] [0; 1]%R)
              (PI / 2)%R PI)
    as ((_ & Hcyl & _) & _).
  destruct (@angular_range_setters_compare_ends quadrature
              (AverageVolumeCylindrical.mk (sample_quantity 1) None
                 (fun _ => 1%R) [])
              (AverageVolumeSpherical.mk (sample_quantity 1) None [] [0; 1]%R)
              0%R (PI / 2)%R)
    as (_ & (_ & Hazimuth & _) & _).
  destruct (@angular_range_setters_compare_ends quadrature
              (AverageVolumeCylindrical.mk (sample_quantity 1) None
                 (fun _ => 1%R) [])
              (AverageVolumeSpherical.mk (sample_quantity 1) None [0; 1]%R [])
              (- PI)%R 0%R)
    as (_ & _ & (_ & Hpolar & _) & _).
  destruct (@angular_range_setters_compare_ends quadrature
              (AverageVolumeCylindrical.mk (sample_quantity 1) None
                 (fun _ => 1%R) [])
              (AverageVolumeSpherical.mk (sample_quantity 1) None [] [])
              (PI / 2)%R (2 * PI)%R)
    as (_ & _ & (_ & _ & Hordered) & _).
  split; [|split; [|split]].
  - apply Hcyl; lra.
  - apply Hazimuth; lra.
  - apply Hpolar; lra.
  - apply Hordered. lra.
Defined.

(** C10.  The setters compare the first component with the lower end of the
    bracket and the second with the upper end, and nothing else: a pair with
    [a > b] passes like any other.  The cylindrical setter accepts
    (2 pi, 0); the span [b - a] is then negative, and [compute] multiplies by
    it: on a constant field [c] it returns [c * (b - a)]. *)
Theorem angular_range_order_unchecked `{Engine}
    (cyl : AverageVolumeCylindrical.t) (sph : AverageVolumeSpherical.t)
    (a b : R) :
  ((0 <= a)%R -> (b <= 2 * PI)%R ->
   AverageVolumeCylindrical.set_azimuth_range cyl [a; b]
   = Ok (AverageVolumeCylindrical.with_azimuth_range cyl [a; b]))
  /\ ((0 <= a)%R -> (b <= PI)%R ->
      AverageVolumeSpherical.set_azimuth_range sph [a; b]
      = Ok (AverageVolumeSpherical.with_azimuth_range sph [a; b]))
  /\ ((- PI <= a)%R -> (b <= PI)%R ->
      AverageVolumeSpherical.set_polar_range sph [a; b]
      = Ok (AverageVolumeSpherical.with_polar_range sph [a; b]))
  /\ (AverageVolumeCylindrical.set_azimuth_range cyl [2 * PI; 0]%R
      = Ok (AverageVolumeCylindrical.with_azimuth_range cyl [2 * PI; 0]%R)
      /\ AverageVolumeCylindrical.azimuth_span
           (AverageVolumeCylindrical.with_azimuth_range cyl [2 * PI; 0]%R)
         = Ok (0 - 2 * PI)%R
      /\ (0 - 2 * PI < 0)%R)
  /\ (forall c : R,
        (b < a)%R ->
        (forall p, fn_value (VolumeQuantity.function
                               (AverageVolumeCylindrical.super cyl)) p = c) ->
        assemble (fun p => 1 * fst (AverageVolumeCylindrical.cache_r cyl) p
                             * AverageVolumeCylindrical.z cyl p)%R
                 (VolumeQuantity.dx (AverageVolumeCylindrical.super cyl))
                 (VolumeQuantity.volume (AverageVolumeCylindrical.super cyl))
        <> 0%R ->
        fst (AverageVolumeCylindrical.compute
               (AverageVolumeCylindrical.with_azimuth_range cyl [a; b]))
        = Ok (c * (b - a))%R
        /\ (b - a < 0)%R).
Proof.
  pose proof PI_RGT_0 as Hpi.
  repeat match goal with |- _ /\ _ => split end.
  - apply cylindrical_azimuth_accepted.
  - apply spherical_azimuth_accepted.
  - apply spherical_polar_accepted.
  - apply cylindrical_azimuth_accepted; lra.
  - reflexivity.
  - lra.
  - intros c Hba Hu Hvol. split; [|lra].
    apply cylindrical_compute_constant.
    + assumption.
    + reflexivity.
    + assert (Hcache :
        fst (AverageVolumeCylindrical.cache_r
               (AverageVolumeCylindrical.with_azimuth_range cyl [a; b]))
        = fst (AverageVolumeCylindrical.cache_r cyl)).
      { unfold AverageVolumeCylindrical.cache_r; simpl.
        destruct (AverageVolumeCylindrical.r cyl); reflexivity. }
      rewrite Hcache; simpl. apply Rmult_integral_contrapositive_currified;
        [assumption | lra].
Qed.

Lemma angular_range_order_unchecked_witness :
  @AverageVolumeCylindrical.set_azimuth_range quadrature
    (AverageVolumeCylindrical.mk (sample_quantity 1) None (fun _ => 1%R) [])
    [PI; 1]%R
  = Ok (AverageVolumeCylindrical.mk (sample_quantity 1) None (fun _ => 1%R)
          [PI; 1]%R)
  /\ fst (@AverageVolumeCylindrical.compute quadrature
            (AverageVolumeCylindrical.mk (sample_quantity 1) None
               (fun _ => 1%R) [PI; 1]%R))
     = Ok (1 * (1 - PI))%R.
Proof.
  pose proof PI2_1 as Hpi.
  destruct (@angular_range_order_unchecked quadrature
              (AverageVolumeCylindrical.mk (sample_quantity 1) None
                 (fun _ => 1%R) [])
              (AverageVolumeSpherical.mk (sample_quantity 1) None [] [])
              PI 1%R)
    as (Hcyl & _ & _ & _ & Hcompute).
  split.
  - apply Hcyl; lra.
  - apply (Hcompute 1%R).
    + lra.
    + reflexivity.
    + simpl. unfold coordinate; simpl. lra.
Defined.

(** ** The cached radial coordinate *)

Section CachedCoordinate.
Context `{Engine}.









End CachedCoordinate.



(** * Further properties *)

(** ** [SurfaceQuantity]: construction and the instances it yields *)

(** The four shapes a goal takes when a setter is run on one kind of
    value: it raised, it returned, or the value is of the wrong kind. *)
Ltac setter_cases :=
  solve [ intros Hraise; discriminate Hraise
        | intros Hok; inversion Hok; now split
        | intros [_ ->]; reflexivity
        | intros [[] _] ].

Lemma set_field_ok (q q' : SurfaceQuantity.t) (v : pyobj) :
  SurfaceQuantity.set_field q v = Ok q'
  <-> is_field v /\ q' = SurfaceQuantity.with_field q v.
Proof.
  unfold SurfaceQuantity.set_field.
  destruct v; simpl; split; setter_cases.
Qed.

Lemma set_surface_subdomain_ok (q q' : SurfaceQuantity.t) (v : pyobj) :
  SurfaceQuantity.set_surface_subdomain q v = Ok q'
  <-> is_surface v /\ q' = SurfaceQuantity.with_surface_subdomain q v.
Proof.
  unfold SurfaceQuantity.set_surface_subdomain.
  destruct v; simpl; split; setter_cases.
Qed.

Lemma set_filename_ok (q q' : SurfaceQuantity.t) (v : pyobj) :
  SurfaceQuantity.set_filename q v = Ok q'
  <-> is_filename v /\ q' = SurfaceQuantity.with_filename q v.
Proof.
  unfold SurfaceQuantity.set_filename.
  destruct v; simpl; split; try setter_cases; intros Hv.
  - destruct (endswith s ".csv") eqn:E; simpl in Hv; [|discriminate Hv].
    inversion Hv. split; [now apply endswith_ends_in | reflexivity].
  - destruct Hv as [Hends ->]. apply endswith_ends_in in Hends.
    now rewrite Hends.
Qed.

Lemma set_field_refused (q : SurfaceQuantity.t) (v : pyobj) :
  ~ is_field v ->
  SurfaceQuantity.set_field q v
  = Raise (TypeError "field must be of type festim.Species").
Proof. destruct v; simpl; intros Hv; try reflexivity; now contradiction Hv. Qed.

Lemma set_surface_subdomain_refused (q : SurfaceQuantity.t) (v : pyobj) :
  ~ is_surface v ->
  SurfaceQuantity.set_surface_subdomain q v
  = Raise (TypeError "surface should be an int or F.SurfaceSubdomain1D").
Proof. destruct v; simpl; intros Hv; try reflexivity; now contradiction Hv. Qed.

Lemma set_filename_refused (q : SurfaceQuantity.t) (v : pyobj) :
  ~ is_filename v ->
  SurfaceQuantity.set_filename q v
    = Raise (TypeError "filename must be of type str")
  \/ SurfaceQuantity.set_filename q v
     = Raise (ValueError "filename must end with .csv").
Proof.
  destruct v; simpl; intros Hv; try (left; reflexivity);
    try now contradiction Hv.
  right. unfold SurfaceQuantity.set_filename; simpl.
  destruct (endswith s ".csv") eqn:E; [|reflexivity].
  apply endswith_ends_in in E. contradiction.
Qed.

(** X1.  The [field] setter accepts every [Species] and every string, the
    empty one included; the instance returned holds that value as its field
    and the surface, file name and value it had.  Every other value
    ([None], a number, a subdomain) raises [TypeError]. *)
Theorem field_setter_validates (q : SurfaceQuantity.t) :
  (forall name,
      SurfaceQuantity.set_field q (PySpecies name)
      = Ok (SurfaceQuantity.mk (PySpecies name)
              (SurfaceQuantity._surface_subdomain q)
              (SurfaceQuantity._filename q) (SurfaceQuantity.value q)))
  /\ (forall s,
        SurfaceQuantity.set_field q (PyStr s)
        = Ok (SurfaceQuantity.mk (PyStr s)
                (SurfaceQuantity._surface_subdomain q)
                (SurfaceQuantity._filename q) (SurfaceQuantity.value q)))
  /\ (forall v q',
        SurfaceQuantity.set_field q v = Ok q' ->
        SurfaceQuantity.field q' = v)
  /\ (forall v, type_of v <> Cls_Species -> type_of v <> Cls_str ->
                SurfaceQuantity.set_field q v
                = Raise (TypeError "field must be of type festim.Species")).
Proof.
  repeat split.
  - intros v q'. unfold SurfaceQuantity.set_field.
    destruct v; simpl; intros Hset; inversion Hset; reflexivity.
  - intros v Hspecies Hstr. apply set_field_refused.
    destruct v; simpl in *; intros Hv; congruence.
Qed.

Lemma field_setter_validates_witness :
  SurfaceQuantity.set_field
    (SurfaceQuantity.mk (PyStr "H") (PyInt 1) (PyStr "flux.csv") (Some 2%R))
    (PyInt 0)
  = Raise (TypeError "field must be of type festim.Species")
  /\ SurfaceQuantity.set_field
       (SurfaceQuantity.mk (PyStr "H") (PyInt 1) (PyStr "flux.csv") (Some 2%R))
       (PyStr "")
     = Ok (SurfaceQuantity.mk (PyStr "") (PyInt 1) (PyStr "flux.csv")
             (Some 2%R))
  /\ SurfaceQuantity.field
       (SurfaceQuantity.mk (PySpecies "D") (PyInt 1) (PyStr "flux.csv")
          (Some 2%R))
     = PySpecies "D".
Proof.
  destruct (field_setter_validates
              (SurfaceQuantity.mk (PyStr "H") (PyInt 1) (PyStr "flux.csv")
                 (Some 2%R)))
    as (_ & Hstr & Hstored & Hrefuse).
  split; [|split].
  - apply Hrefuse; simpl; discriminate.
  - apply Hstr.
  - apply (Hstored (PySpecies "D")). reflexivity.
Defined.

(** X2.  [__init__] returns an instance exactly when the field is a
    [Species] or a string, the surface is an [int] (not a [bool]) or a
    surface subdomain, and the file name is [None] or a string ending in
    [.csv]; the instance then holds the three arguments as given and has no
    [value] yet. *)
Theorem init_succeeds_iff (field surface filename : pyobj)
    (q : SurfaceQuantity.t) :
  SurfaceQuantity.__init__ field surface filename = Ok q
  <-> is_field field /\ is_surface surface /\ is_filename filename
      /\ q = SurfaceQuantity.mk field surface filename None.
Proof.
  unfold SurfaceQuantity.__init__. split.
  - intros Hinit.
    destruct (SurfaceQuantity.set_field SurfaceQuantity.fresh field)
      as [q1|e] eqn:H1; [|discriminate Hinit].
    apply set_field_ok in H1 as [Hf ->]. cbn [bind] in Hinit.
    destruct (SurfaceQuantity.set_surface_subdomain _ surface)
      as [q2|e] eqn:H2; [|discriminate Hinit].
    apply set_surface_subdomain_ok in H2 as [Hs ->]. cbn [bind] in Hinit.
    apply set_filename_ok in Hinit as [Hn ->].
    repeat split; assumption.
  - intros (Hf & Hs & Hn & ->).
    assert (H1 : SurfaceQuantity.set_field SurfaceQuantity.fresh field
                 = Ok (SurfaceQuantity.with_field SurfaceQuantity.fresh field))
      by now apply set_field_ok.
    rewrite H1; cbn [bind].
    assert (H2 : SurfaceQuantity.set_surface_subdomain
                   (SurfaceQuantity.with_field SurfaceQuantity.fresh field)
                   surface
                 = Ok (SurfaceQuantity.with_surface_subdomain
                         (SurfaceQuantity.with_field SurfaceQuantity.fresh
                            field) surface))
      by now apply set_surface_subdomain_ok.
    rewrite H2; cbn [bind]. now apply set_filename_ok.
Qed.

Lemma init_succeeds_iff_witness :
  SurfaceQuantity.__init__ (PySpecies "H") (PySurfaceSubdomain1D 2 1)
    (PyStr "flux.csv")
  = Ok (SurfaceQuantity.mk (PySpecies "H") (PySurfaceSubdomain1D 2 1)
          (PyStr "flux.csv") None).
Proof.
  apply init_succeeds_iff. repeat split. exists "flux"%string. reflexivity.
Defined.

(** X3.  The arguments of [__init__] are checked in the order field,
    surface, file name, and the first one refused decides the exception:
    a bad field hides a bad surface and a bad file name, and a bad surface
    hides a bad file name. *)
Theorem init_reports_first_refusal (field surface filename : pyobj) :
  (~ is_field field ->
   SurfaceQuantity.__init__ field surface filename
   = Raise (TypeError "field must be of type festim.Species"))
  /\ (is_field field -> ~ is_surface surface ->
      SurfaceQuantity.__init__ field surface filename
      = Raise (TypeError "surface should be an int or F.SurfaceSubdomain1D"))
  /\ (is_field field -> is_surface surface -> ~ is_filename filename ->
      SurfaceQuantity.__init__ field surface filename
        = Raise (TypeError "filename must be of type str")
      \/ SurfaceQuantity.__init__ field surface filename
         = Raise (ValueError "filename must end with .csv")).
Proof.
  unfold SurfaceQuantity.__init__. split; [|split].
  - intros Hf. now rewrite set_field_refused.
  - intros Hf Hs.
    rewrite (proj2 (set_field_ok _ _ field) (conj Hf eq_refl)); cbn [bind].
    now rewrite set_surface_subdomain_refused.
  - intros Hf Hs Hn.
    rewrite (proj2 (set_field_ok _ _ field) (conj Hf eq_refl)); cbn [bind].
    rewrite (proj2 (set_surface_subdomain_ok _ _ surface) (conj Hs eq_refl));
      cbn [bind].
    now apply set_filename_refused.
Qed.

Lemma init_reports_first_refusal_witness :
  SurfaceQuantity.__init__ PyNone (PyBool true) (PyStr "flux.txt")
    = Raise (TypeError "field must be of type festim.Species")
  /\ SurfaceQuantity.__init__ (PyStr "H") (PyBool true) (PyStr "flux.txt")
     = Raise (TypeError "surface should be an int or F.SurfaceSubdomain1D").
Proof.
  destruct (init_reports_first_refusal PyNone (PyBool true) (PyStr "flux.txt"))
    as (Hfield & _).
  destruct (init_reports_first_refusal (PyStr "H") (PyBool true)
              (PyStr "flux.txt")) as (_ & Hsurface & _).
  split.
  - apply Hfield. simpl. tauto.
  - apply Hsurface; simpl; tauto.
Defined.

Lemma sq_step_well_formed (q q' : SurfaceQuantity.t) :
  sq_well_formed q -> sq_step q q' -> sq_well_formed q'.
Proof.
  intros (Hf & Hs & Hn) Hstep. destruct Hstep as [q q' v Hv|q q' v Hv|q q' v Hv|q v].
  - apply set_field_ok in Hv as [Hv ->]. now repeat split.
  - apply set_surface_subdomain_ok in Hv as [Hv ->]. now repeat split.
  - apply set_filename_ok in Hv as [Hv ->]. now repeat split.
  - now repeat split.
Qed.

Lemma sq_invariant (q : SurfaceQuantity.t) :
  sq_reachable q -> sq_well_formed q.
Proof.
  induction 1 as [field surface filename q Hinit|q q' _ IH Hstep].
  - unfold SurfaceQuantity.__init__ in Hinit.
    destruct (SurfaceQuantity.set_field SurfaceQuantity.fresh field)
      as [q1|e] eqn:H1; [|discriminate Hinit].
    apply set_field_ok in H1 as [Hf ->]. cbn [bind] in Hinit.
    destruct (SurfaceQuantity.set_surface_subdomain _ surface)
      as [q2|e] eqn:H2; [|discriminate Hinit].
    apply set_surface_subdomain_ok in H2 as [Hs ->]. cbn [bind] in Hinit.
    apply set_filename_ok in Hinit as [Hn ->].
    now repeat split.
  - eapply sq_step_well_formed; eassumption.
Qed.

(** X4.  Whatever is done to an instance after its construction (assigning
    a field, a surface, a file name, in any number and order, or the
    computed value), as long as the assignments do not raise, the instance
    keeps a [Species] or a string as field, a non-boolean [int] or a surface
    subdomain as surface, and [None] or a string ending in [.csv] as file
    name. *)
Theorem reachable_instances_well_formed (q : SurfaceQuantity.t) :
  sq_reachable q ->
  is_field (SurfaceQuantity.field q)
  /\ is_surface (SurfaceQuantity.surface_subdomain q)
  /\ is_filename (SurfaceQuantity.filename q).
Proof. apply sq_invariant. Qed.

Lemma reachable_instances_well_formed_witness :
  is_field (PyStr "T")
  /\ is_surface (PyInt 1)
  /\ is_filename (PyStr "t.csv").
Proof.
  apply (reachable_instances_well_formed
           (SurfaceQuantity.mk (PyStr "T") (PyInt 1) (PyStr "t.csv")
              (Some 300%R))).
  apply (sq_used
           (SurfaceQuantity.mk (PyStr "T") (PyInt 1) (PyStr "t.csv") None));
    [|apply sq_assign_value].
  apply (sq_used (SurfaceQuantity.mk (PyStr "T") (PyInt 1) PyNone None));
    [|apply (sq_assign_filename _ _ (PyStr "t.csv")); reflexivity].
  apply (sq_used (SurfaceQuantity.mk (PySpecies "H") (PyInt 1) PyNone None));
    [|apply (sq_assign_field _ _ (PyStr "T")); reflexivity].
  apply (sq_constructed (PySpecies "H") (PyInt 1) PyNone). reflexivity.
Defined.

(** ** [SurfaceQuantity.write]: what reaches the file system *)

(** The files after [write(t)], whatever the instance. *)
Lemma write_files (q : SurfaceQuantity.t) (t : R) (fs : FileSystem) :
  files (snd (SurfaceQuantity.write q t fs))
  = match SurfaceQuantity.filename q with
    | PyStr name =>
        <[name := rows_of fs name
                  ++ match SurfaceQuantity.value q with
                     | Some v => [[t; v]]
                     | None => []
                     end]> (files fs)
    | _ => files fs
    end.
Proof.
  unfold SurfaceQuantity.write, rows_of.
  destruct (SurfaceQuantity.filename q); try reflexivity.
  destruct (SurfaceQuantity.value q); simpl.
  - now rewrite lookup_insert_eq, insert_insert_eq.
  - now rewrite app_nil_r.
Qed.

(** The trace after [write(t)], whatever the instance. *)
Lemma write_trace (q : SurfaceQuantity.t) (t : R) (fs : FileSystem) :
  trace (snd (SurfaceQuantity.write q t fs))
  = trace fs
    ++ match SurfaceQuantity.filename q with
       | PyStr name =>
           EvOpen name "a"
           :: match SurfaceQuantity.value q with
              | Some v => [EvWriteRow name [t; v]]
              | None => []
              end
           ++ [EvClose name]
       | _ => []
       end.
Proof.
  unfold SurfaceQuantity.write.
  destruct (SurfaceQuantity.filename q); try (now rewrite app_nil_r).
  destruct (SurfaceQuantity.value q); simpl; now rewrite <- !app_assoc.
Qed.

(** X5.  Such an instance only ever writes to a file whose name ends in
    [.csv]: [write(t)] leaves every other path as it was (absent if it was
    absent). *)
Theorem write_touches_only_csv (q : SurfaceQuantity.t) (t : R)
    (fs : FileSystem) (path : string) :
  sq_reachable q -> ~ ends_in ".csv" path ->
  files (snd (SurfaceQuantity.write q t fs)) !! path = files fs !! path.
Proof.
  intros Hq Hpath. apply sq_invariant in Hq as (_ & _ & Hn).
  rewrite write_files.
  destruct (SurfaceQuantity.filename q); try reflexivity.
  simpl in Hn. apply lookup_insert_ne. intros ->. contradiction.
Qed.

Lemma write_touches_only_csv_witness :
  files (snd (SurfaceQuantity.write
                (SurfaceQuantity.mk (PyStr "H") (PyInt 1) (PyStr "flux.csv")
                   None)
                0%R (mkFS {[ "notes.txt"%string := [[1%R]] ]} [])))
    !! "notes.txt"%string
  = Some [[1%R]].
Proof.
  etransitivity.
  - apply (write_touches_only_csv
             (SurfaceQuantity.mk (PyStr "H") (PyInt 1) (PyStr "flux.csv") None)
             0%R (mkFS {[ "notes.txt"%string := [[1%R]] ]} [])
             "notes.txt"%string).
    + apply (sq_constructed (PyStr "H") (PyInt 1) (PyStr "flux.csv")).
      reflexivity.
    + intros Hends. apply endswith_ends_in in Hends.
      vm_compute in Hends. discriminate Hends.
  - simpl. apply lookup_singleton_eq.
Defined.




(** X7.  When [write(t)] is called on an instance that has a file name but
    no [value] yet, the file has already been opened by the time the row is
    built: the call raises [AttributeError], no row is written, and a file
    that did not exist is left behind, empty. *)
Theorem write_before_value_leaves_file (q : SurfaceQuantity.t) (t : R)
    (fs : FileSystem) (name : string) :
  SurfaceQuantity.filename q = PyStr name ->
  SurfaceQuantity.value q = None ->
  fst (SurfaceQuantity.write q t fs)
    = Raise (AttributeError
               "'SurfaceQuantity' object has no attribute 'value'")
  /\ rows_of (snd (SurfaceQuantity.write q t fs)) name = rows_of fs name
  /\ (files fs !! name = None ->
      files (snd (SurfaceQuantity.write q t fs)) !! name = Some [])
  /\ trace (snd (SurfaceQuantity.write q t fs))
     = trace fs ++ [EvOpen name "a"; EvClose name].
Proof.
  intros Hname Hvalue. split; [|split; [|split]].
  - unfold SurfaceQuantity.write. now rewrite Hname, Hvalue.
  - unfold rows_of at 1.
    now rewrite write_files, Hname, Hvalue, lookup_insert_eq, app_nil_r.
  - intros Hnew. rewrite write_files, Hname, Hvalue, lookup_insert_eq.
    unfold rows_of. now rewrite Hnew.
  - now rewrite write_trace, Hname, Hvalue.
Qed.

Lemma write_before_value_leaves_file_witness :
  files (snd (SurfaceQuantity.write
                (SurfaceQuantity.mk (PyStr "H") (PyInt 1) (PyStr "flux.csv")
                   None)
                0%R (mkFS ∅ [])))
    !! "flux.csv"%string
  = Some [].
Proof.
  apply (write_before_value_leaves_file
           (SurfaceQuantity.mk (PyStr "H") (PyInt 1) (PyStr "flux.csv") None)
           0%R (mkFS ∅ []) "flux.csv"%string eq_refl eq_refl).
  reflexivity.
Defined.

(** X8.  [write(t)] only ever appends: for every instance, with or without
    file name or value, and for every path, the rows the path had are still
    there, in place, afterwards, and a file that existed still exists. *)
Theorem write_is_append_only (q : SurfaceQuantity.t) (t : R)
    (fs : FileSystem) (path : string) :
  (exists added,
      rows_of (snd (SurfaceQuantity.write q t fs)) path
      = rows_of fs path ++ added)
  /\ (is_Some (files fs !! path) ->
      is_Some (files (snd (SurfaceQuantity.write q t fs)) !! path)).
Proof.
  unfold rows_of at 1. rewrite write_files.
  destruct (SurfaceQuantity.filename q) as [| | | |name| | |];
    try (split; [exists []; now rewrite app_nil_r | tauto]).
  destruct (decide (name = path)) as [->|Hne].
  - rewrite lookup_insert_eq. split; [eexists; reflexivity | eauto].
  - rewrite lookup_insert_ne by assumption.
    split; [exists []; now rewrite app_nil_r | tauto].
Qed.

Lemma write_is_append_only_witness :
  is_Some
    (files (snd (SurfaceQuantity.write
                   (SurfaceQuantity.mk (PyStr "H") (PyInt 1)
                      (PyStr "flux.csv") (Some 2%R))
                   1%R (mkFS {[ "flux.csv"%string := [[0%R; 5%R]] ]} [])))
       !! "flux.csv"%string).
Proof.
  apply (write_is_append_only
           (SurfaceQuantity.mk (PyStr "H") (PyInt 1) (PyStr "flux.csv")
              (Some 2%R))
           1%R (mkFS {[ "flux.csv"%string := [[0%R; 5%R]] ]} [])
           "flux.csv"%string).
  simpl. rewrite lookup_singleton_eq. eauto.
Defined.

(** X9.  Two quantities that export to different files do not disturb each
    other: their [write] calls give the same files in either order.  Two
    quantities that export to the same file both get their row in, in the
    order of the calls. *)
Theorem writes_to_distinct_files_commute (q1 q2 : SurfaceQuantity.t)
    (t1 t2 : R) (fs : FileSystem) :
  (SurfaceQuantity.filename q1 <> SurfaceQuantity.filename q2 ->
   files (snd (SurfaceQuantity.write q1 t1
                 (snd (SurfaceQuantity.write q2 t2 fs))))
   = files (snd (SurfaceQuantity.write q2 t2
                   (snd (SurfaceQuantity.write q1 t1 fs)))))
  /\ (forall name v1 v2,
        SurfaceQuantity.filename q1 = PyStr name ->
        SurfaceQuantity.filename q2 = PyStr name ->
        SurfaceQuantity.value q1 = Some v1 ->
        SurfaceQuantity.value q2 = Some v2 ->
        rows_of (snd (SurfaceQuantity.write q2 t2
                        (snd (SurfaceQuantity.write q1 t1 fs)))) name
        = rows_of fs name ++ [[t1; v1]; [t2; v2]]).
Proof.
  split.
  - intros Hne.
    rewrite (write_files q1 t1 (snd (SurfaceQuantity.write q2 t2 fs))),
      (write_files q2 t2 (snd (SurfaceQuantity.write q1 t1 fs))).
    unfold rows_of.
    rewrite (write_files q1 t1 fs), (write_files q2 t2 fs).
    destruct (SurfaceQuantity.filename q1) as [| | | |n1| | |];
      destruct (SurfaceQuantity.filename q2) as [| | | |n2| | |];
      try reflexivity.
    assert (Hn12 : n1 <> n2) by congruence.
    assert (Hn21 : n2 <> n1) by congruence.
    rewrite (lookup_insert_ne _ n2 n1), (lookup_insert_ne _ n1 n2)
      by assumption.
    now apply insert_insert_ne.
  - intros name v1 v2 Hn1 Hn2 Hv1 Hv2.
    unfold rows_of at 1.
    rewrite write_files, Hn2, Hv2, lookup_insert_eq.
    unfold rows_of at 1.
    rewrite write_files, Hn1, Hv1, lookup_insert_eq.
    simpl. now rewrite <- app_assoc.
Qed.

Lemma writes_to_distinct_files_commute_witness :
  files (snd (SurfaceQuantity.write
                (SurfaceQuantity.mk (PyStr "H") (PyInt 1) (PyStr "left.csv")
                   (Some 1%R))
                0%R
                (snd (SurfaceQuantity.write
                        (SurfaceQuantity.mk (PyStr "H") (PyInt 2)
                           (PyStr "right.csv") (Some 2%R))
                        0%R (mkFS ∅ [])))))
  = files (snd (SurfaceQuantity.write
                  (SurfaceQuantity.mk (PyStr "H") (PyInt 2)
                     (PyStr "right.csv") (Some 2%R))
                  0%R
                  (snd (SurfaceQuantity.write
                          (SurfaceQuantity.mk (PyStr "H") (PyInt 1)
                             (PyStr "left.csv") (Some 1%R))
                          0%R (mkFS ∅ []))))).
Proof.
  apply (writes_to_distinct_files_commute
           (SurfaceQuantity.mk (PyStr "H") (PyInt 1) (PyStr "left.csv")
              (Some 1%R))
           (SurfaceQuantity.mk (PyStr "H") (PyInt 2) (PyStr "right.csv")
              (Some 2%R))
           0%R 0%R (mkFS ∅ [])).
  simpl. discriminate.
Defined.

Lemma open_handles_app (tr evs : list fs_event) :
  open_handles (tr ++ evs) = fold_left trace_step evs (open_handles tr).
Proof. unfold open_handles. apply fold_left_app. Qed.

Lemma trace_guarded_app (opened : list string) (tr evs : list fs_event) :
  trace_guarded opened (tr ++ evs)
  = trace_guarded opened tr
    && trace_guarded (fold_left trace_step tr opened) evs.
Proof.
  revert opened. induction tr as [|ev tr IH]; intros opened; simpl.
  - reflexivity.
  - rewrite IH. now rewrite andb_assoc.
Qed.

Lemma remove_first_head (path : string) (opened : list string) :
  remove_first path (path :: opened) = opened.
Proof. simpl. now rewrite String.eqb_refl. Qed.

(** X10.  [write(t)] leaves no file open: the files open after the call
    are the ones that were open before it, whether the call wrote its row,
    failed for want of a value or failed for want of a file name.  And it
    writes its row only while its file is open: a trace in which every row
    and every close refers to an open file stays such a trace. *)
Theorem write_closes_what_it_opens (q : SurfaceQuantity.t) (t : R)
    (fs : FileSystem) :
  open_handles (trace (snd (SurfaceQuantity.write q t fs)))
    = open_handles (trace fs)
  /\ (trace_guarded [] (trace fs) = true ->
      trace_guarded [] (trace (snd (SurfaceQuantity.write q t fs))) = true).
Proof.
  rewrite write_trace. split.
  - rewrite open_handles_app.
    destruct (SurfaceQuantity.filename q) as [| | | |name| | |];
      try reflexivity.
    destruct (SurfaceQuantity.value q); simpl; now rewrite String.eqb_refl.
  - intros Hguarded. rewrite trace_guarded_app, Hguarded.
    destruct (SurfaceQuantity.filename q) as [| | | |name| | |];
      try reflexivity.
    destruct (SurfaceQuantity.value q); simpl;
      now rewrite !String.eqb_refl.
Qed.

Lemma write_closes_what_it_opens_witness :
  trace_guarded []
    (trace (snd (SurfaceQuantity.write
                   (SurfaceQuantity.mk (PyStr "H") (PyInt 1)
                      (PyStr "flux.csv") (Some 2%R))
                   1%R (mkFS ∅ [EvOpen "log.csv" "a"]))))
  = true.
Proof.
  apply (write_closes_what_it_opens
           (SurfaceQuantity.mk (PyStr "H") (PyInt 1) (PyStr "flux.csv")
              (Some 2%R))
           1%R (mkFS ∅ [EvOpen "log.csv" "a"])).
  reflexivity.
Defined.

(** ** The averages on any field *)

Lemma py_div_zero (x y : R) :
  y = 0%R -> py_div x y = Raise (ZeroDivisionError "float division by zero").
Proof. intros Hy. unfold py_div. now destruct (Req_dec_T y 0). Qed.

Lemma np_div_zero (x y : R) : y = 0%R -> np_div x y = NanOrInf.
Proof. intros Hy. unfold np_div. now destruct (Req_dec_T y 0). Qed.

Section AnyField.
Context `{Engine}.
Local Open Scope R_scope.

(** What the cylindrical [compute] returns, with the three reads of the
    span folded into one. *)
Lemma cylindrical_compute_eq (q : AverageVolumeCylindrical.t) :
  fst (AverageVolumeCylindrical.compute q)
  = let* span := AverageVolumeCylindrical.azimuth_span q in
    let* avg_vol := py_div (cyl_weighted_field q * span)
                           (cyl_weighted_unit q * span) in
    Ok (avg_vol * span).
Proof.
  unfold AverageVolumeCylindrical.compute, cyl_weighted_field,
    cyl_weighted_unit, AverageVolumeCylindrical.cache_r.
  destruct (AverageVolumeCylindrical.r q) as [rr|]; cbn [fst snd];
    unfold AverageVolumeCylindrical.compute_with,
      AverageVolumeCylindrical.azimuth_span,
      AverageVolumeCylindrical.azimuth_range,
      AverageVolumeCylindrical.with_r;
    cbn [AverageVolumeCylindrical.super AverageVolumeCylindrical.z
         AverageVolumeCylindrical._azimuth_range];
    destruct (getitem (AverageVolumeCylindrical._azimuth_range q) 1);
    cbn [bind]; try reflexivity;
    destruct (getitem (AverageVolumeCylindrical._azimuth_range q) 0);
    cbn [bind]; reflexivity.
Qed.

Lemma spherical_compute_eq (q : AverageVolumeSpherical.t) :
  fst (AverageVolumeSpherical.compute q)
  = let* pspan := AverageVolumeSpherical.polar_span q in
    let* acos := AverageVolumeSpherical.azimuth_cos_diff q in
    Ok (np_div (sph_weighted_field q * pspan * acos)
               (sph_weighted_unit q * pspan * acos)).
Proof.
  unfold AverageVolumeSpherical.compute, sph_weighted_field,
    sph_weighted_unit, AverageVolumeSpherical.cache_r.
  destruct (AverageVolumeSpherical.r q) as [rr|]; cbn [fst snd];
    unfold AverageVolumeSpherical.compute_with,
      AverageVolumeSpherical.polar_span,
      AverageVolumeSpherical.azimuth_cos_diff,
      AverageVolumeSpherical.polar_range,
      AverageVolumeSpherical.azimuth_range,
      AverageVolumeSpherical.with_r;
    cbn [AverageVolumeSpherical.super AverageVolumeSpherical._polar_range
         AverageVolumeSpherical._azimuth_range];
    destruct (getitem (AverageVolumeSpherical._polar_range q) 1);
    cbn [bind]; try reflexivity;
    destruct (getitem (AverageVolumeSpherical._polar_range q) 0);
    cbn [bind]; try reflexivity;
    destruct (getitem (AverageVolumeSpherical._azimuth_range q) 1);
    cbn [bind]; try reflexivity;
    destruct (getitem (AverageVolumeSpherical._azimuth_range q) 0);
    cbn [bind]; reflexivity.
Qed.

End AnyField.

(** X11.  On any field, the cylindrical [compute] returns the azimuthal
    span times the average of the field weighted by [r * z]: the ratio of
    the two integrals, in which the span cancels, multiplied by the span. *)
Theorem cylindrical_compute_is_span_times_average `{Engine}
    (q : AverageVolumeCylindrical.t) (span : R) :
  AverageVolumeCylindrical.azimuth_span q = Ok span ->
  (cyl_weighted_unit q * span <> 0)%R ->
  fst (AverageVolumeCylindrical.compute q)
  = Ok (cyl_weighted_field q / cyl_weighted_unit q * span)%R.
Proof.
  intros Hspan Hvol. rewrite cylindrical_compute_eq, Hspan; cbn [bind].
  rewrite py_div_ok by exact Hvol. cbn [bind]. f_equal.
  field. split; intros H0; apply Hvol; rewrite H0; ring.
Qed.

Lemma cylindrical_compute_is_span_times_average_witness :
  fst (@AverageVolumeCylindrical.compute quadrature
         (AverageVolumeCylindrical.mk
            (@VolumeQuantity.mk quadrature (PyStr "solute") 1%Z false
               (@mkFunction quadrature sample_mesh (coordinate 0))
               sample_mesh)
            None (fun _ => 1%R) [0; 2]%R))
  = Ok ((1 * (1 * 1 * 1) + (1 * (3 * 3 * 1) + (0 + 0)))
        / (1 * (1 * 1 * 1) + (1 * (1 * 3 * 1) + (0 + 0))) * (2 - 0))%R.
Proof.
  apply (@cylindrical_compute_is_span_times_average quadrature
           (AverageVolumeCylindrical.mk
              (@VolumeQuantity.mk quadrature (PyStr "solute") 1%Z false
                 (@mkFunction quadrature sample_mesh (coordinate 0))
                 sample_mesh)
              None (fun _ => 1%R) [0; 2]%R)
           (2 - 0)%R).
  - reflexivity.
  - unfold cyl_weighted_unit; simpl. unfold coordinate; simpl. lra.
Defined.

(** X12.  A range whose two ends coincide passes the cylindrical setter
    (when it lies in the bracket), and so does any range over a volume whose
    weighted measure is zero; [compute] then raises [ZeroDivisionError],
    after it has cached the radial coordinate. *)
Theorem cylindrical_degenerate_range_raises `{Engine}
    (q : AverageVolumeCylindrical.t) :
  (forall span,
      AverageVolumeCylindrical.azimuth_span q = Ok span ->
      (cyl_weighted_unit q * span = 0)%R ->
      fst (AverageVolumeCylindrical.compute q)
        = Raise (ZeroDivisionError "float division by zero")
      /\ AverageVolumeCylindrical.r (snd (AverageVolumeCylindrical.compute q))
         <> None)
  /\ (forall a,
        (0 <= a <= 2 * PI)%R ->
        exists q',
          AverageVolumeCylindrical.set_azimuth_range q [a; a] = Ok q'
          /\ fst (AverageVolumeCylindrical.compute q')
             = Raise (ZeroDivisionError "float division by zero")).
Proof.
  split.
  - intros span Hspan Hzero. split.
    + rewrite cylindrical_compute_eq, Hspan; cbn [bind].
      now rewrite py_div_zero.
    + unfold AverageVolumeCylindrical.compute,
        AverageVolumeCylindrical.cache_r.
      destruct (AverageVolumeCylindrical.r q) eqn:Hr; cbn [snd];
        [now rewrite Hr | discriminate].
  - intros a [Ha0 Ha1]. eexists. split.
    + now apply cylindrical_azimuth_accepted.
    + rewrite cylindrical_compute_eq.
      change (AverageVolumeCylindrical.azimuth_span
                (AverageVolumeCylindrical.with_azimuth_range q [a; a]))
        with (Ok (a - a)%R).
      cbn [bind]. rewrite py_div_zero; [reflexivity | ring].
Qed.

Lemma cylindrical_degenerate_range_raises_witness :
  exists q',
    @AverageVolumeCylindrical.set_azimuth_range quadrature
      (AverageVolumeCylindrical.mk (sample_quantity 1) None (fun _ => 1%R) [])
      [1; 1]%R
    = Ok q'
    /\ fst (AverageVolumeCylindrical.compute q')
       = Raise (ZeroDivisionError "float division by zero").
Proof.
  pose proof PI2_1 as Hpi.
  apply (@cylindrical_degenerate_range_raises quadrature
           (AverageVolumeCylindrical.mk (sample_quantity 1) None
              (fun _ => 1%R) [])).
  lra.
Defined.

Lemma spherical_compute_quotient `{Engine} (q : AverageVolumeSpherical.t)
    (pspan acos : R) :
  AverageVolumeSpherical.polar_span q = Ok pspan ->
  AverageVolumeSpherical.azimuth_cos_diff q = Ok acos ->
  (sph_weighted_unit q * pspan * acos <> 0)%R ->
  fst (AverageVolumeSpherical.compute q)
  = Ok (Finite (sph_weighted_field q / sph_weighted_unit q)%R).
Proof.
  intros Hp Ha Hvol. rewrite spherical_compute_eq, Hp, Ha; cbn [bind].
  rewrite np_div_ok by exact Hvol.
  apply (f_equal (fun x => Ok (Finite x))).
  field. repeat split; intros H0; apply Hvol; rewrite H0; ring.
Qed.

(** X13.  In the spherical [compute] the angular factors cancel: whenever
    the volume the method computes (the measure weighted by [r^2], times the
    polar span, times the difference of the cosines) is not zero, the value
    returned is the average of the field weighted by [r^2], whatever the
    two ranges are.  So two instances that differ in their ranges only, both
    with a non-zero volume, return the same value. *)
Theorem spherical_compute_ignores_ranges `{Engine}
    (q : AverageVolumeSpherical.t) (pspan acos : R) :
  AverageVolumeSpherical.polar_span q = Ok pspan ->
  AverageVolumeSpherical.azimuth_cos_diff q = Ok acos ->
  (sph_weighted_unit q * pspan * acos <> 0)%R ->
  fst (AverageVolumeSpherical.compute q)
    = Ok (Finite (sph_weighted_field q / sph_weighted_unit q)%R)
  /\ (forall (azimuth' polar' : list R) (pspan' acos' : R),
        let q' := AverageVolumeSpherical.mk
                    (AverageVolumeSpherical.super q)
                    (AverageVolumeSpherical.r q) azimuth' polar' in
        AverageVolumeSpherical.polar_span q' = Ok pspan' ->
        AverageVolumeSpherical.azimuth_cos_diff q' = Ok acos' ->
        (sph_weighted_unit q' * pspan' * acos' <> 0)%R ->
        fst (AverageVolumeSpherical.compute q')
        = fst (AverageVolumeSpherical.compute q)).
Proof.
  intros Hp Ha Hvol.
  pose proof (spherical_compute_quotient q pspan acos Hp Ha Hvol) as Hq.
  split; [exact Hq|].
  intros azimuth' polar' pspan' acos' q' Hp' Ha' Hvol'.
  rewrite Hq.
  rewrite (spherical_compute_quotient q' pspan' acos' Hp' Ha' Hvol').
  unfold sph_weighted_field, sph_weighted_unit,
    AverageVolumeSpherical.cache_r, q'.
  cbn [AverageVolumeSpherical.super AverageVolumeSpherical.r].
  destruct (AverageVolumeSpherical.r q); reflexivity.
Qed.

Lemma spherical_compute_ignores_ranges_witness :
  fst (@AverageVolumeSpherical.compute quadrature
         (AverageVolumeSpherical.mk
            (@VolumeQuantity.mk quadrature (PyStr "solute") 1%Z false
               (@mkFunction quadrature sample_mesh (coordinate 0))
               sample_mesh)
            None [0; PI]%R [1; 0]%R))
  = fst (@AverageVolumeSpherical.compute quadrature
           (AverageVolumeSpherical.mk
              (@VolumeQuantity.mk quadrature (PyStr "solute") 1%Z false
                 (@mkFunction quadrature sample_mesh (coordinate 0))
                 sample_mesh)
              None [0; PI / 2]%R [0; 3]%R)).
Proof.
  destruct (@spherical_compute_ignores_ranges quadrature
              (AverageVolumeSpherical.mk
                 (@VolumeQuantity.mk quadrature (PyStr "solute") 1%Z false
                    (@mkFunction quadrature sample_mesh (coordinate 0))
                    sample_mesh)
                 None [0; PI / 2]%R [0; 3]%R)
              (3 - 0)%R (- cos (PI / 2) + cos 0)%R eq_refl eq_refl)
    as (_ & Hsame).
  { unfold sph_weighted_unit; simpl. unfold coordinate; simpl.
    rewrite cos_PI2, cos_0. lra. }
  apply (Hsame [0; PI]%R [1; 0]%R (0 - 1)%R (- cos PI + cos 0)%R
           eq_refl eq_refl).
  unfold sph_weighted_unit; simpl. unfold coordinate; simpl.
  rewrite cos_PI, cos_0. lra.
Defined.

(** X14.  The spherical [compute] never raises on a zero volume: when the
    weighted measure is zero or an angular factor vanishes, it returns a
    [nan] or an infinity.  A polar range whose two ends coincide is accepted
    by the setter and is such a case. *)
Theorem spherical_degenerate_range_gives_nan `{Engine}
    (q : AverageVolumeSpherical.t) :
  (forall pspan acos,
      AverageVolumeSpherical.polar_span q = Ok pspan ->
      AverageVolumeSpherical.azimuth_cos_diff q = Ok acos ->
      (sph_weighted_unit q * pspan * acos = 0)%R ->
      fst (AverageVolumeSpherical.compute q) = Ok NanOrInf)
  /\ (forall p a0 a1,
        (- PI <= p <= PI)%R ->
        AverageVolumeSpherical.azimuth_range q = [a0; a1] ->
        exists q',
          AverageVolumeSpherical.set_polar_range q [p; p] = Ok q'
          /\ fst (AverageVolumeSpherical.compute q') = Ok NanOrInf).
Proof.
  split.
  - intros pspan acos Hp Ha Hzero.
    rewrite spherical_compute_eq, Hp, Ha; cbn [bind].
    now rewrite np_div_zero.
  - intros p a0 a1 [Hp0 Hp1] Haz. eexists. split.
    + now apply spherical_polar_accepted.
    + rewrite spherical_compute_eq.
      unfold AverageVolumeSpherical.polar_span,
        AverageVolumeSpherical.azimuth_cos_diff,
        AverageVolumeSpherical.polar_range.
      cbn [AverageVolumeSpherical.with_polar_range
           AverageVolumeSpherical._polar_range
           AverageVolumeSpherical.azimuth_range
           AverageVolumeSpherical._azimuth_range
           getitem nth_error bind].
      unfold AverageVolumeSpherical.azimuth_range in Haz. rewrite Haz.
      cbn [getitem nth_error bind].
      rewrite np_div_zero; [reflexivity | ring].
Qed.

Lemma spherical_degenerate_range_gives_nan_witness :
  exists q',
    @AverageVolumeSpherical.set_polar_range quadrature
      (AverageVolumeSpherical.mk (sample_quantity 7) None [0; PI]%R [])
      [0; 0]%R
    = Ok q'
    /\ fst (AverageVolumeSpherical.compute q') = Ok NanOrInf.
Proof.
  pose proof PI_RGT_0 as Hpi.
  destruct (@spherical_degenerate_range_gives_nan quadrature
              (AverageVolumeSpherical.mk (sample_quantity 7) None
                 [0; PI]%R []))
    as [_ Hdegenerate].
  apply (Hdegenerate 0%R 0%R PI); [lra | reflexivity].
Defined.

(** ** The angular ranges on any tuple *)

(** Settle a goal about a range setter run on a tuple of known shape. *)
Ltac range_setter_cases :=
  range_check;
  solve [ reflexivity
        | split; [ intros Hraise; discriminate Hraise
                 | intros [Hrange _]; simpl in Hrange; lra ]
        | split; [ intros Hok; inversion Hok; simpl; split; [lra | reflexivity]
                 | intros [_ ->]; reflexivity ]
        | split; [ intros Hraise; discriminate Hraise | intros [[] _] ] ].

Section AnyTuple.
Context `{Engine}.
Local Open Scope R_scope.

Lemma cylindrical_set_azimuth_range_ok (q q' : AverageVolumeCylindrical.t)
    (v : list R) :
  AverageVolumeCylindrical.set_azimuth_range q v = Ok q'
  <-> range_ok 0 (2 * PI) v
      /\ q' = AverageVolumeCylindrical.with_azimuth_range q v.
Proof.
  unfold AverageVolumeCylindrical.set_azimuth_range,
    AverageVolumeCylindrical.azimuth_out_of_range.
  destruct v as [|a [|b rest]]; range_setter_cases.
Qed.

Lemma spherical_set_azimuth_range_ok (q q' : AverageVolumeSpherical.t)
    (v : list R) :
  AverageVolumeSpherical.set_azimuth_range q v = Ok q'
  <-> range_ok 0 PI v /\ q' = AverageVolumeSpherical.with_azimuth_range q v.
Proof.
  unfold AverageVolumeSpherical.set_azimuth_range,
    AverageVolumeSpherical.azimuth_out_of_range.
  destruct v as [|a [|b rest]]; range_setter_cases.
Qed.

Lemma spherical_set_polar_range_ok (q q' : AverageVolumeSpherical.t)
    (v : list R) :
  AverageVolumeSpherical.set_polar_range q v = Ok q'
  <-> range_ok (- PI) PI v
      /\ q' = AverageVolumeSpherical.with_polar_range q v.
Proof.
  unfold AverageVolumeSpherical.set_polar_range,
    AverageVolumeSpherical.polar_out_of_range.
  destruct v as [|a [|b rest]]; range_setter_cases.
Qed.

End AnyTuple.

(** X15.  The range setters look at the first two components only, and at
    the second only when the first is in range.  The empty tuple raises
    [IndexError]; a one-component tuple raises [ValueError] when its
    component is below the bracket and [IndexError] otherwise; a tuple of
    more than two components is accepted or refused by each of the three
    setters as its first two components are, and when accepted it is stored
    whole, the other attributes staying as they were. *)
Theorem range_setters_index_lazily `{Engine}
    (cyl : AverageVolumeCylindrical.t) (sph : AverageVolumeSpherical.t) :
  (AverageVolumeCylindrical.set_azimuth_range cyl []
     = Raise (IndexError "tuple index out of range")
   /\ AverageVolumeSpherical.set_azimuth_range sph []
      = Raise (IndexError "tuple index out of range")
   /\ AverageVolumeSpherical.set_polar_range sph []
      = Raise (IndexError "tuple index out of range"))
  /\ (forall a : R,
        AverageVolumeCylindrical.set_azimuth_range cyl [a]
        = (if Rlt_dec a 0
           then Raise (ValueError "Azimuthal range must be between 0 and pi")
           else Raise (IndexError "tuple index out of range"))
        /\ AverageVolumeSpherical.set_azimuth_range sph [a]
           = (if Rlt_dec a 0
              then Raise (ValueError "Azimuthal range must be between 0 and pi")
              else Raise (IndexError "tuple index out of range"))
        /\ AverageVolumeSpherical.set_polar_range sph [a]
           = (if Rlt_dec a (- PI)
              then Raise (ValueError "Polar range must be between - pi and pi")
              else Raise (IndexError "tuple index out of range")))
  /\ (forall (a b : R) (rest : list R),
        (((0 <= a)%R -> (b <= 2 * PI)%R ->
          AverageVolumeCylindrical.set_azimuth_range cyl (a :: b :: rest)
          = Ok (AverageVolumeCylindrical.mk
                  (AverageVolumeCylindrical.super cyl)
                  (AverageVolumeCylindrical.r cyl)
                  (AverageVolumeCylindrical.z cyl) (a :: b :: rest)))
         /\ ((a < 0 \/ 2 * PI < b)%R ->
             AverageVolumeCylindrical.set_azimuth_range cyl (a :: b :: rest)
             = Raise (ValueError "Azimuthal range must be between 0 and pi")))
        /\ (((0 <= a)%R -> (b <= PI)%R ->
             AverageVolumeSpherical.set_azimuth_range sph (a :: b :: rest)
             = Ok (AverageVolumeSpherical.mk
                     (AverageVolumeSpherical.super sph)
                     (AverageVolumeSpherical.r sph) (a :: b :: rest)
                     (AverageVolumeSpherical._polar_range sph)))
            /\ ((a < 0 \/ PI < b)%R ->
                AverageVolumeSpherical.set_azimuth_range sph (a :: b :: rest)
                = Raise (ValueError
                           "Azimuthal range must be between 0 and pi")))
        /\ (((- PI <= a)%R -> (b <= PI)%R ->
             AverageVolumeSpherical.set_polar_range sph (a :: b :: rest)
             = Ok (AverageVolumeSpherical.mk
                     (AverageVolumeSpherical.super sph)
                     (AverageVolumeSpherical.r sph)
                     (AverageVolumeSpherical._azimuth_range sph)
                     (a :: b :: rest)))
            /\ ((a < - PI \/ PI < b)%R ->
                AverageVolumeSpherical.set_polar_range sph (a :: b :: rest)
                = Raise (ValueError
                           "Polar range must be between - pi and pi")))).
Proof.
  split; [repeat split|]. split.
  - intros a.
    unfold AverageVolumeCylindrical.set_azimuth_range,
      AverageVolumeCylindrical.azimuth_out_of_range,
      AverageVolumeSpherical.set_azimuth_range,
      AverageVolumeSpherical.azimuth_out_of_range,
      AverageVolumeSpherical.set_polar_range,
      AverageVolumeSpherical.polar_out_of_range.
    cbn [getitem nth_error bind].
    destruct (Rlt_dec a 0); destruct (Rlt_dec a (- PI)); repeat split.
  - intros a b rest.
    unfold AverageVolumeCylindrical.set_azimuth_range,
      AverageVolumeCylindrical.azimuth_out_of_range,
      AverageVolumeSpherical.set_azimuth_range,
      AverageVolumeSpherical.azimuth_out_of_range,
      AverageVolumeSpherical.set_polar_range,
      AverageVolumeSpherical.polar_out_of_range.
    repeat split; intros; range_check; try reflexivity; lra.
Qed.

Lemma range_setters_index_lazily_witness :
  @AverageVolumeCylindrical.set_azimuth_range quadrature
    (AverageVolumeCylindrical.mk (sample_quantity 1) None (fun _ => 1%R) [])
    [0; 1; 2]%R
  = Ok (AverageVolumeCylindrical.mk (sample_quantity 1) None (fun _ => 1%R)
          [0; 1; 2]%R)
  /\ @AverageVolumeSpherical.set_azimuth_range quadrature
       (AverageVolumeSpherical.mk (sample_quantity 1) None [] [0; 1]%R)
       [0; 1; 9]%R
     = Ok (AverageVolumeSpherical.mk (sample_quantity 1) None [0; 1; 9]%R
             [0; 1]%R)
  /\ @AverageVolumeSpherical.set_polar_range quadrature
       (AverageVolumeSpherical.mk (sample_quantity 1) None [0; 1]%R [])
       [0; 1; 9]%R
     = Ok (AverageVolumeSpherical.mk (sample_quantity 1) None [0; 1]%R
             [0; 1; 9]%R)
  /\ @AverageVolumeSpherical.set_polar_range quadrature
       (AverageVolumeSpherical.mk (sample_quantity 1) None [0; 1]%R [])
       [0; 9; 1]%R
     = Raise (ValueError "Polar range must be between - pi and pi").
Proof.
  pose proof PI2_1 as Hpi. pose proof PI_4 as Hpi4.
  destruct (@range_setters_index_lazily quadrature
              (AverageVolumeCylindrical.mk (sample_quantity 1) None
                 (fun _ => 1%R) [])
              (AverageVolumeSpherical.mk (sample_quantity 1) None [] [0; 1]%R))
    as (_ & _ & Hlong1).
  destruct (@range_setters_index_lazily quadrature
              (AverageVolumeCylindrical.mk (sample_quantity 1) None
                 (fun _ => 1%R) [])
              (AverageVolumeSpherical.mk (sample_quantity 1) None [0; 1]%R []))
    as (_ & _ & Hlong2).
  destruct (Hlong1 0%R 1%R [2%R]) as ((Hcyl & _) & _).
  destruct (Hlong1 0%R 1%R [9%R]) as (_ & (Hazimuth & _) & _).
  destruct (Hlong2 0%R 1%R [9%R]) as (_ & _ & (Hpolar & _)).
  destruct (Hlong2 0%R 9%R [1%R]) as (_ & _ & (_ & Hrefused)).
  split; [|split; [|split]].
  - apply Hcyl; lra.
  - apply Hazimuth; lra.
  - apply Hpolar; lra.
  - apply Hrefused. right. lra.
Defined.

(** X16.  Construction of the cylindrical and of the spherical variant
    succeeds exactly when the ranges given have two components in their
    brackets; the instance then holds the ranges as given, with [r] unset.
    The spherical constructor checks the azimuth range first, so a bad
    azimuth range is reported whatever the polar range is. *)
Theorem angular_construction_succeeds_iff `{Engine}
    (super : VolumeQuantity.t) (z : Expr) (azimuth polar : list R) :
  (forall q,
      AverageVolumeCylindrical.__init__ super z azimuth = Ok q
      <-> range_ok 0 (2 * PI) azimuth
          /\ q = AverageVolumeCylindrical.mk super None z azimuth)
  /\ (forall q,
        AverageVolumeSpherical.__init__ super azimuth polar = Ok q
        <-> range_ok 0 PI azimuth /\ range_ok (- PI) PI polar
            /\ q = AverageVolumeSpherical.mk super None azimuth polar)
  /\ (forall e,
        AverageVolumeSpherical.set_azimuth_range
          (AverageVolumeSpherical.mk super None [] []) azimuth = Raise e ->
        AverageVolumeSpherical.__init__ super azimuth polar = Raise e).
Proof.
  split; [|split].
  - intros q. unfold AverageVolumeCylindrical.__init__.
    apply cylindrical_set_azimuth_range_ok.
  - intros q. unfold AverageVolumeSpherical.__init__. split.
    + intros Hinit.
      destruct (AverageVolumeSpherical.set_azimuth_range _ azimuth)
        as [q1|e] eqn:H1; [|discriminate Hinit].
      apply spherical_set_azimuth_range_ok in H1 as [Ha ->].
      cbn [bind] in Hinit.
      apply spherical_set_polar_range_ok in Hinit as [Hp ->].
      repeat split; assumption.
    + intros (Ha & Hp & ->).
      rewrite (proj2 (spherical_set_azimuth_range_ok _ _ azimuth)
                 (conj Ha eq_refl)); cbn [bind].
      now apply spherical_set_polar_range_ok.
  - intros e He. unfold AverageVolumeSpherical.__init__. now rewrite He.
Qed.

Lemma angular_construction_succeeds_iff_witness :
  @AverageVolumeSpherical.__init__ quadrature (sample_quantity 1)
    AverageVolumeSpherical.default_azimuth_range
    AverageVolumeSpherical.default_polar_range
  = Ok (AverageVolumeSpherical.mk (sample_quantity 1) None [0; PI]%R
          [- PI; PI]%R)
  /\ @AverageVolumeSpherical.__init__ quadrature (sample_quantity 1)
       [- 1; 0]%R [0; 4]%R
     = Raise (ValueError "Azimuthal range must be between 0 and pi").
Proof.
  pose proof PI_RGT_0 as Hpi.
  destruct (@angular_construction_succeeds_iff quadrature (sample_quantity 1)
              (fun _ => 1%R) [0; PI]%R [- PI; PI]%R)
    as (_ & Hiff & _).
  destruct (@angular_construction_succeeds_iff quadrature (sample_quantity 1)
              (fun _ => 1%R) [- 1; 0]%R [0; 4]%R)
    as (_ & _ & Hfirst).
  split.
  - apply Hiff. simpl. repeat split; lra.
  - apply Hfirst. apply (@spherical_azimuth_rejected quadrature). left. lra.
Defined.

(** ** The instances that exist *)

Section Reachable.
Context `{Engine}.
Local Open Scope R_scope.

Lemma cylindrical_compute_keeps_range (q : AverageVolumeCylindrical.t) :
  AverageVolumeCylindrical.azimuth_range
    (snd (AverageVolumeCylindrical.compute q))
  = AverageVolumeCylindrical.azimuth_range q.
Proof.
  unfold AverageVolumeCylindrical.compute, AverageVolumeCylindrical.cache_r.
  now destruct (AverageVolumeCylindrical.r q).
Qed.

Lemma spherical_compute_keeps_ranges (q : AverageVolumeSpherical.t) :
  AverageVolumeSpherical.azimuth_range
    (snd (AverageVolumeSpherical.compute q))
  = AverageVolumeSpherical.azimuth_range q
  /\ AverageVolumeSpherical.polar_range
       (snd (AverageVolumeSpherical.compute q))
     = AverageVolumeSpherical.polar_range q.
Proof.
  unfold AverageVolumeSpherical.compute, AverageVolumeSpherical.cache_r.
  now destruct (AverageVolumeSpherical.r q).
Qed.

Lemma cyl_invariant (q : AverageVolumeCylindrical.t) :
  cyl_reachable q ->
  range_ok 0 (2 * PI) (AverageVolumeCylindrical.azimuth_range q).
Proof.
  induction 1 as [super z range q Hinit|q q' _ IH Hstep].
  - apply cylindrical_set_azimuth_range_ok in Hinit as [Hrange ->].
    exact Hrange.
  - destruct Hstep as [q q' v Hv|q|q super' z'].
    + apply cylindrical_set_azimuth_range_ok in Hv as [Hrange ->].
      exact Hrange.
    + now rewrite cylindrical_compute_keeps_range.
    + exact IH.
Qed.

Lemma sph_invariant (q : AverageVolumeSpherical.t) :
  sph_reachable q ->
  range_ok 0 PI (AverageVolumeSpherical.azimuth_range q)
  /\ range_ok (- PI) PI (AverageVolumeSpherical.polar_range q).
Proof.
  induction 1 as [super azimuth polar q Hinit|q q' _ IH Hstep].
  - unfold AverageVolumeSpherical.__init__ in Hinit.
    destruct (AverageVolumeSpherical.set_azimuth_range _ azimuth)
      as [q1|e] eqn:H1; [|discriminate Hinit].
    apply spherical_set_azimuth_range_ok in H1 as [Ha ->].
    cbn [bind] in Hinit.
    apply spherical_set_polar_range_ok in Hinit as [Hp ->].
    split; assumption.
  - destruct IH as [IHa IHp].
    destruct Hstep as [q q' v Hv|q q' v Hv|q|q super'].
    + apply spherical_set_azimuth_range_ok in Hv as [Hrange ->].
      split; assumption.
    + apply spherical_set_polar_range_ok in Hv as [Hrange ->].
      split; assumption.
    + destruct (spherical_compute_keeps_ranges q) as [-> ->].
      split; assumption.
    + split; assumption.
Qed.

End Reachable.

(** X17.  A cylindrical instance, however it was constructed and whatever
    ranges were assigned to it since without raising, holds as its range a
    tuple of at least two components of which the first is not below 0 and
    the second is not above 2 pi.  Nothing more is kept: the two need not
    be in order, and the first may exceed 2 pi.  So in [compute] the reads
    of [azimuth_range[1]] and [azimuth_range[0]] find their components: the
    span is the number [b - a], and [compute] returns or raises what the
    division and the multiplication by the span give. *)
Theorem cylindrical_span_always_readable `{Engine}
    (q : AverageVolumeCylindrical.t) :
  cyl_reachable q ->
  exists (a b : R) (rest : list R),
    AverageVolumeCylindrical.azimuth_range q = a :: b :: rest
    /\ (0 <= a)%R /\ (b <= 2 * PI)%R
    /\ AverageVolumeCylindrical.azimuth_span q = Ok (b - a)%R
    /\ fst (AverageVolumeCylindrical.compute q)
       = (let* avg_vol := py_div (cyl_weighted_field q * (b - a))
                                 (cyl_weighted_unit q * (b - a)) in
          Ok (avg_vol * (b - a))%R).
Proof.
  intros Hq. pose proof (cyl_invariant q Hq) as Hrange.
  rewrite cylindrical_compute_eq.
  unfold AverageVolumeCylindrical.azimuth_span.
  destruct (AverageVolumeCylindrical.azimuth_range q) as [|a [|b rest]];
    try contradiction.
  destruct Hrange as [Ha Hb]. exists a, b, rest.
  cbn [getitem nth_error bind]. now repeat split.
Qed.

Lemma cylindrical_span_always_readable_witness :
  exists (a b : R) (rest : list R),
    [9; 1; 5]%R = a :: b :: rest
    /\ (0 <= a)%R /\ (b <= 2 * PI)%R
    /\ @AverageVolumeCylindrical.azimuth_span quadrature
         (AverageVolumeCylindrical.mk (sample_quantity 1)
            (Some (coordinate 0)) (fun _ => 1%R) [9; 1; 5]%R)
       = Ok (b - a)%R
    /\ fst (@AverageVolumeCylindrical.compute quadrature
              (AverageVolumeCylindrical.mk (sample_quantity 1)
                 (Some (coordinate 0)) (fun _ => 1%R) [9; 1; 5]%R))
       = (let* avg_vol :=
            py_div
              (@cyl_weighted_field quadrature
                 (AverageVolumeCylindrical.mk (sample_quantity 1)
                    (Some (coordinate 0)) (fun _ => 1%R) [9; 1; 5]%R)
               * (b - a))
              (@cyl_weighted_unit quadrature
                 (AverageVolumeCylindrical.mk (sample_quantity 1)
                    (Some (coordinate 0)) (fun _ => 1%R) [9; 1; 5]%R)
               * (b - a)) in
          Ok (avg_vol * (b - a))%R).
Proof.
  pose proof PI2_1 as Hpi.
  apply (@cylindrical_span_always_readable quadrature
           (AverageVolumeCylindrical.mk (sample_quantity 1)
              (Some (coordinate 0)) (fun _ => 1%R) [9; 1; 5]%R)).
  apply (cyl_used
           (AverageVolumeCylindrical.mk (sample_quantity 1)
              (Some (coordinate 0)) (fun _ => 1%R) [0; 2 * PI]%R)).
  - apply (cyl_used
             (AverageVolumeCylindrical.mk (sample_quantity 1) None
                (fun _ => 1%R) [0; 2 * PI]%R)).
    + apply (cyl_constructed (sample_quantity 1) (fun _ => 1%R)
               AverageVolumeCylindrical.default_azimuth_range).
      apply (@cylindrical_azimuth_accepted quadrature); lra.
    + apply (@cyl_compute quadrature
               (AverageVolumeCylindrical.mk (sample_quantity 1) None
                  (fun _ => 1%R) [0; 2 * PI]%R)).
  - apply (cyl_assign_range _ _ [9; 1; 5]%R).
    apply cylindrical_set_azimuth_range_ok. simpl. repeat split; lra.
Defined.

(** X18.  A spherical instance, however it was constructed and whatever
    ranges were assigned to it since without raising, holds two tuples of at
    least two components: an azimuth range whose first component is not
    below 0 and whose second is not above pi, and a polar range whose first
    is not below -pi and whose second is not above pi (in either, the two
    need not be in order).  So in [compute] the four index reads find their
    components, and [compute] returns the quotient of its two products,
    which is a number, or a [nan] or an infinity when the divisor is 0. *)
Theorem spherical_ranges_always_readable `{Engine}
    (q : AverageVolumeSpherical.t) :
  sph_reachable q ->
  exists (a0 a1 p0 p1 : R) (arest prest : list R),
    AverageVolumeSpherical.azimuth_range q = a0 :: a1 :: arest
    /\ (0 <= a0)%R /\ (a1 <= PI)%R
    /\ AverageVolumeSpherical.polar_range q = p0 :: p1 :: prest
    /\ (- PI <= p0)%R /\ (p1 <= PI)%R
    /\ fst (AverageVolumeSpherical.compute q)
       = Ok (np_div (sph_weighted_field q * (p1 - p0)
                     * (- cos a1 + cos a0))
                    (sph_weighted_unit q * (p1 - p0)
                     * (- cos a1 + cos a0)))%R.
Proof.
  intros Hq. destruct (sph_invariant q Hq) as [Ha Hp].
  rewrite spherical_compute_eq.
  unfold AverageVolumeSpherical.polar_span,
    AverageVolumeSpherical.azimuth_cos_diff.
  destruct (AverageVolumeSpherical.azimuth_range q) as [|a0 [|a1 arest]];
    try contradiction.
  destruct (AverageVolumeSpherical.polar_range q) as [|p0 [|p1 prest]];
    try contradiction.
  destruct Ha as [Ha0 Ha1]. destruct Hp as [Hp0 Hp1].
  exists a0, a1, p0, p1, arest, prest.
  cbn [getitem nth_error bind]. now repeat split.
Qed.

Lemma spherical_ranges_always_readable_witness :
  exists (a0 a1 p0 p1 : R) (arest prest : list R),
    [0; PI]%R = a0 :: a1 :: arest
    /\ (0 <= a0)%R /\ (a1 <= PI)%R
    /\ [- PI; PI]%R = p0 :: p1 :: prest
    /\ (- PI <= p0)%R /\ (p1 <= PI)%R
    /\ fst (@AverageVolumeSpherical.compute quadrature
              (AverageVolumeSpherical.mk (sample_quantity 1) None [0; PI]%R
                 [- PI; PI]%R))
       = Ok (np_div
               (@sph_weighted_field quadrature
                  (AverageVolumeSpherical.mk (sample_quantity 1) None
                     [0; PI]%R [- PI; PI]%R)
                * (p1 - p0) * (- cos a1 + cos a0))
               (@sph_weighted_unit quadrature
                  (AverageVolumeSpherical.mk (sample_quantity 1) None
                     [0; PI]%R [- PI; PI]%R)
                * (p1 - p0) * (- cos a1 + cos a0)))%R.
Proof.
  pose proof PI_RGT_0 as Hpi.
  apply (@spherical_ranges_always_readable quadrature
           (AverageVolumeSpherical.mk (sample_quantity 1) None [0; PI]%R
              [- PI; PI]%R)).
  apply (sph_constructed (sample_quantity 1)
           AverageVolumeSpherical.default_azimuth_range
           AverageVolumeSpherical.default_polar_range).
  unfold AverageVolumeSpherical.__init__,
    AverageVolumeSpherical.default_azimuth_range,
    AverageVolumeSpherical.default_polar_range.
  rewrite (@spherical_azimuth_accepted quadrature) by lra. cbn [bind].
  apply (@spherical_polar_accepted quadrature); lra.
Defined.

(** ** The cache and the values returned *)

Section Cache.
Context `{Engine}.

Lemma cylindrical_cache_r_twice (q : AverageVolumeCylindrical.t) :
  AverageVolumeCylindrical.cache_r (snd (AverageVolumeCylindrical.cache_r q))
  = AverageVolumeCylindrical.cache_r q.
Proof.
  unfold AverageVolumeCylindrical.cache_r.
  destruct (AverageVolumeCylindrical.r q) eqn:Hr; cbn [snd].
  - now rewrite Hr.
  - reflexivity.
Qed.

Lemma spherical_cache_r_twice (q : AverageVolumeSpherical.t) :
  AverageVolumeSpherical.cache_r (snd (AverageVolumeSpherical.cache_r q))
  = AverageVolumeSpherical.cache_r q.
Proof.
  unfold AverageVolumeSpherical.cache_r.
  destruct (AverageVolumeSpherical.r q) eqn:Hr; cbn [snd].
  - now rewrite Hr.
  - reflexivity.
Qed.

Lemma cyl_step_keeps_r (q q' : AverageVolumeCylindrical.t) (rr : Expr) :
  cyl_step q q' ->
  AverageVolumeCylindrical.r q = Some rr ->
  AverageVolumeCylindrical.r q' = Some rr.
Proof.
  intros Hstep Hr. destruct Hstep as [q q' v Hv|q|q super' z'].
  - apply cylindrical_set_azimuth_range_ok in Hv as [_ ->]. exact Hr.
  - unfold AverageVolumeCylindrical.compute,
      AverageVolumeCylindrical.cache_r. now rewrite Hr.
  - exact Hr.
Qed.

Lemma sph_step_keeps_r (q q' : AverageVolumeSpherical.t) (rr : Expr) :
  sph_step q q' ->
  AverageVolumeSpherical.r q = Some rr ->
  AverageVolumeSpherical.r q' = Some rr.
Proof.
  intros Hstep Hr. destruct Hstep as [q q' v Hv|q q' v Hv|q|q super'].
  - apply spherical_set_azimuth_range_ok in Hv as [_ ->]. exact Hr.
  - apply spherical_set_polar_range_ok in Hv as [_ ->]. exact Hr.
  - unfold AverageVolumeSpherical.compute,
      AverageVolumeSpherical.cache_r. now rewrite Hr.
  - exact Hr.
Qed.

End Cache.

(** X19.  Caching does not change what [compute] returns: called again on
    the instance it has just left, it gives the same value or raises the
    same exception, in both variants. *)
Theorem compute_is_repeatable `{Engine} :
  (forall q : AverageVolumeCylindrical.t,
      fst (AverageVolumeCylindrical.compute
             (snd (AverageVolumeCylindrical.compute q)))
      = fst (AverageVolumeCylindrical.compute q))
  /\ (forall q : AverageVolumeSpherical.t,
        fst (AverageVolumeSpherical.compute
               (snd (AverageVolumeSpherical.compute q)))
        = fst (AverageVolumeSpherical.compute q)).
Proof.
  split; intros q.
  - unfold AverageVolumeCylindrical.compute at 1 3.
    change (snd (AverageVolumeCylindrical.compute q))
      with (snd (let '(rr, self) := AverageVolumeCylindrical.cache_r q in
                 (AverageVolumeCylindrical.compute_with self rr, self))).
    pose proof (cylindrical_cache_r_twice q) as Htwice.
    destruct (AverageVolumeCylindrical.cache_r q) as [rr q1].
    cbn [fst snd] in *. now rewrite Htwice.
  - unfold AverageVolumeSpherical.compute at 1 3.
    change (snd (AverageVolumeSpherical.compute q))
      with (snd (let '(rr, self) := AverageVolumeSpherical.cache_r q in
                 (AverageVolumeSpherical.compute_with self rr, self))).
    pose proof (spherical_cache_r_twice q) as Htwice.
    destruct (AverageVolumeSpherical.cache_r q) as [rr q1].
    cbn [fst snd] in *. now rewrite Htwice.
Qed.

(** X20.  Once [r] is set it is never extracted again: no range assignment,
    no call of [compute] and no assignment of another solution function,
    even one that lives on another mesh, changes it.  After any number of
    such operations [r] is still the coordinate of the mesh the function had
    at the first [compute]. *)
Theorem radial_coordinate_never_refreshed `{Engine} :
  (forall (q q' : AverageVolumeCylindrical.t) (rr : Expr),
      rtc cyl_step q q' ->
      AverageVolumeCylindrical.r q = Some rr ->
      AverageVolumeCylindrical.r q' = Some rr)
  /\ (forall (q q' : AverageVolumeSpherical.t) (rr : Expr),
        rtc sph_step q q' ->
        AverageVolumeSpherical.r q = Some rr ->
        AverageVolumeSpherical.r q' = Some rr)
  /\ (forall (q : AverageVolumeCylindrical.t) (super' : VolumeQuantity.t),
        AverageVolumeCylindrical.r q = None ->
        AverageVolumeCylindrical.r
          (snd (AverageVolumeCylindrical.compute
                  (AverageVolumeCylindrical.mk super'
                     (AverageVolumeCylindrical.r
                        (snd (AverageVolumeCylindrical.compute q)))
                     (AverageVolumeCylindrical.z q)
                     (AverageVolumeCylindrical._azimuth_range q))))
        = Some (radial_coordinate (AverageVolumeCylindrical.super q))).
Proof.
  split; [|split].
  - intros q q' rr Hsteps. induction Hsteps as [q|q q1 q' Hstep _ IH].
    + trivial.
    + intros Hr. apply IH. eapply cyl_step_keeps_r; eassumption.
  - intros q q' rr Hsteps. induction Hsteps as [q|q q1 q' Hstep _ IH].
    + trivial.
    + intros Hr. apply IH. eapply sph_step_keeps_r; eassumption.
  - intros q super' Hr.
    unfold AverageVolumeCylindrical.compute,
      AverageVolumeCylindrical.cache_r.
    rewrite Hr. reflexivity.
Qed.

Lemma radial_coordinate_never_refreshed_witness :
  AverageVolumeCylindrical.r
    (snd (@AverageVolumeCylindrical.compute quadrature
            (AverageVolumeCylindrical.mk
               (@VolumeQuantity.mk quadrature (PyStr "solute") 1%Z false
                  (@mkFunction quadrature [] (fun _ => 2%R)) [])
               (AverageVolumeCylindrical.r
                  (snd (@AverageVolumeCylindrical.compute quadrature
                          (AverageVolumeCylindrical.mk (sample_quantity 1)
                             None (fun _ => 1%R) [0; 1]%R))))
               (fun _ => 1%R) [0; 1]%R)))
  = Some (@radial_coordinate quadrature (sample_quantity 1)).
Proof.
  destruct (@radial_coordinate_never_refreshed quadrature)
    as (_ & _ & Hrebind).
  apply (Hrebind
           (AverageVolumeCylindrical.mk (sample_quantity 1) None
              (fun _ => 1%R) [0; 1]%R)
           (@VolumeQuantity.mk quadrature (PyStr "solute") 1%Z false
              (@mkFunction quadrature [] (fun _ => 2%R)) [])).
  reflexivity.
Defined.

(** ** Averages and totals *)

Lemma quad_assemble_untagged (g : Expr) (qs : list QuadPoint) (id : Z) :
  (forall qp, In qp qs -> qp_tag qp <> id) -> quad_assemble g qs id = 0%R.
Proof.
  induction qs as [|q qs IH]; intros Hnone; simpl; [reflexivity|].
  rewrite IH by (intros qp Hin; apply Hnone; now right).
  destruct (Z.eqb_spec (qp_tag q) id) as [Heq|_]; [|ring].
  exfalso. apply (Hnone q); [now left | exact Heq].
Qed.

(** X21.  When integration over the subdomain is monotone (a larger
    integrand gives a larger integral, as with positive quadrature weights)
    and the measure is not zero, [AverageVolume.compute] returns a value
    between any two bounds of the field. *)
Theorem average_within_field_bounds `{Engine} (self : AverageVolume.t)
    (lo hi : R) :
  (forall g h : Expr,
      (forall p, g p <= h p)%R ->
      (assemble g (VolumeQuantity.dx self) (VolumeQuantity.volume self)
       <= assemble h (VolumeQuantity.dx self) (VolumeQuantity.volume self))%R) ->
  (forall p, lo <= fn_value (VolumeQuantity.function self) p <= hi)%R ->
  measure_of (VolumeQuantity.dx self) (VolumeQuantity.volume self) <> 0%R ->
  exists avg, AverageVolume.compute self = Ok avg /\ (lo <= avg <= hi)%R.
Proof.
  intros Hmono Hbounds Hmeasure. unfold AverageVolume.compute.
  fold (measure_of (VolumeQuantity.dx self) (VolumeQuantity.volume self)).
  set (V := measure_of (VolumeQuantity.dx self) (VolumeQuantity.volume self))
    in *.
  set (I := assemble (fn_value (VolumeQuantity.function self))
                     (VolumeQuantity.dx self) (VolumeQuantity.volume self)).
  assert (Hscal : forall c : R,
             assemble (fun _ => c * 1)%R (VolumeQuantity.dx self)
                      (VolumeQuantity.volume self) = (c * V)%R).
  { intros c. apply (assemble_scal c (fun _ => 1%R)). }
  assert (HV : (0 <= V)%R).
  { rewrite <- (Rmult_0_l V), <- Hscal. apply Hmono. intros p. lra. }
  assert (Hlo : (lo * V <= I)%R).
  { rewrite <- Hscal. apply Hmono. intros p. destruct (Hbounds p). lra. }
  assert (Hhi : (I <= hi * V)%R).
  { rewrite <- Hscal. apply Hmono. intros p. destruct (Hbounds p). lra. }
  rewrite py_div_ok by exact Hmeasure. eexists. split; [reflexivity|].
  assert (HVpos : (0 < V)%R) by lra.
  split.
  - apply Rmult_le_reg_r with V; [exact HVpos|].
    replace (I / V * V)%R with I by (field; lra). exact Hlo.
  - apply Rmult_le_reg_r with V; [exact HVpos|].
    replace (I / V * V)%R with I by (field; lra). exact Hhi.
Qed.

Lemma average_within_field_bounds_witness :
  exists avg,
    @AverageVolume.compute quadrature
      (@VolumeQuantity.mk quadrature (PyStr "solute") 1%Z false
         (@mkFunction quadrature sample_mesh
            (fun p => if Rle_dec (coordinate 0 p) 2 then 1%R else 3%R))
         sample_mesh)
    = Ok avg
    /\ (1 <= avg <= 3)%R.
Proof.
  apply (@average_within_field_bounds quadrature
           (@VolumeQuantity.mk quadrature (PyStr "solute") 1%Z false
              (@mkFunction quadrature sample_mesh
                 (fun p => if Rle_dec (coordinate 0 p) 2 then 1%R else 3%R))
              sample_mesh)
           1%R 3%R).
  - intros g h Hgh; simpl.
    pose proof (Hgh [1%R]). pose proof (Hgh [3%R]). lra.
  - intros p; simpl. destruct (Rle_dec (coordinate 0 p) 2); lra.
  - rewrite quad_measure_is_volume; simpl. lra.
Defined.

(** X22.  Over a subdomain of measure zero [AverageVolume.compute] raises
    [ZeroDivisionError], whatever the field.  With a quadrature rule that
    is what happens for a volume id that tags no cell, for which
    [TotalVolume.compute] returns 0. *)
Theorem average_over_empty_volume_raises `{Engine} :
  (forall self : AverageVolume.t,
      measure_of (VolumeQuantity.dx self) (VolumeQuantity.volume self) = 0%R ->
      AverageVolume.compute self
      = Raise (ZeroDivisionError "float division by zero"))
  /\ (forall self : @AverageVolume.t quadrature,
        (forall qp, In qp (VolumeQuantity.dx self) ->
                    qp_tag qp <> VolumeQuantity.volume self) ->
        @AverageVolume.compute quadrature self
        = Raise (ZeroDivisionError "float division by zero"))
  /\ (forall self : @TotalVolume.t quadrature,
        (forall qp, In qp (DerivedQuantity.dx (TotalVolume.super self)) ->
                    qp_tag qp <> TotalVolume.volume self) ->
        @TotalVolume.compute quadrature self = 0%R).
Proof.
  split; [|split].
  - intros self Hzero. unfold AverageVolume.compute. now apply py_div_zero.
  - intros self Hnone. unfold AverageVolume.compute. apply py_div_zero.
    now apply quad_assemble_untagged.
  - intros self Hnone. unfold TotalVolume.compute.
    now apply quad_assemble_untagged.
Qed.

Lemma average_over_empty_volume_raises_witness :
  @AverageVolume.compute quadrature
    (@VolumeQuantity.mk quadrature (PyStr "solute") 9%Z false
       (constant_function 1) sample_mesh)
  = Raise (ZeroDivisionError "float division by zero").
Proof.
  destruct (@average_over_empty_volume_raises quadrature) as (_ & Hnone & _).
  apply Hnone. simpl.
  intros qp [<-|[<-|[<-|[]]]]; simpl; discriminate.
Defined.

(** X23.  The total and the average of one field over one volume fit
    together: whenever [AverageVolume.compute] returns a value, the value of
    [TotalVolume.compute] is that average times the measure of the
    volume. *)
Theorem total_is_average_times_measure `{Engine} (vq : VolumeQuantity.t)
    (dq : DerivedQuantity.t) (avg : R) :
  DerivedQuantity.function dq = VolumeQuantity.function vq ->
  DerivedQuantity.dx dq = VolumeQuantity.dx vq ->
  AverageVolume.compute vq = Ok avg ->
  TotalVolume.compute (TotalVolume.__init__ dq (VolumeQuantity.volume vq))
  = (avg * measure_of (VolumeQuantity.dx vq) (VolumeQuantity.volume vq))%R.
Proof.
  intros Hfn Hdx. unfold AverageVolume.compute, TotalVolume.compute,
    TotalVolume.__init__, py_div, measure_of.
  cbn [TotalVolume.super TotalVolume.volume]. rewrite Hfn, Hdx.
  destruct (Req_dec_T _ 0) as [|Hnz]; [discriminate|].
  intros Havg. inversion Havg. now field.
Qed.

Lemma total_is_average_times_measure_witness :
  @TotalVolume.compute quadrature
    (TotalVolume.__init__
       (@DerivedQuantity.mk quadrature (PyStr "solute") (constant_function 7)
          sample_mesh sample_mesh)
       1%Z)
  = (7 * @measure_of quadrature sample_mesh 1%Z)%R.
Proof.
  apply (@total_is_average_times_measure quadrature (sample_quantity 7)
           (@DerivedQuantity.mk quadrature (PyStr "solute")
              (constant_function 7) sample_mesh sample_mesh)
           7%R eq_refl eq_refl).
  unfold AverageVolume.compute; simpl. rewrite py_div_ok by lra.
  f_equal. field.
Defined.

(** ** Titles *)

Lemma append_cancel_l (p s1 s2 : string) :
  String.append p s1 = String.append p s2 -> s1 = s2.
Proof.
  induction p as [|c p IH]; intros Heq; [exact Heq|].
  apply IH. now inversion Heq.
Qed.

Lemma append_cancel_r (s1 s2 suffix : string) :
  String.append s1 suffix = String.append s2 suffix -> s1 = s2.
Proof.
  revert s2. induction s1 as [|c s1 IH]; intros [|d s2] Heq.
  - reflexivity.
  - apply (f_equal String.length) in Heq.
    rewrite !length_append in Heq. simpl in Heq. lia.
  - apply (f_equal String.length) in Heq.
    rewrite !length_append in Heq. simpl in Heq. lia.
  - inversion Heq as [[Hc Hrest]]. f_equal. now apply IH.
Qed.

Lemma append_cons (c : Ascii.ascii) (s t : string) :
  String.append (String c s) t = String c (String.append s t).
Proof. reflexivity. Qed.

(** X24.  [AverageVolume.title] tells volumes apart: two quantities on the
    same field and with the same [show_units] have the same title only if
    they have the same volume id.  With [show_units] the title ends in
    [(K)] for the field ["T"] and in [(H m-3)] for every other field. *)
Theorem average_title_tells_volumes_apart `{Engine}
    (q1 q2 : VolumeQuantity.t) (t : string) :
  (VolumeQuantity.field q1 = VolumeQuantity.field q2 ->
   VolumeQuantity.show_units q1 = VolumeQuantity.show_units q2 ->
   AverageVolume_title q1 = Some t -> AverageVolume_title q2 = Some t ->
   VolumeQuantity.volume q1 = VolumeQuantity.volume q2)
  /\ (VolumeQuantity.show_units q1 = true ->
      AverageVolume_title q1 = Some t ->
      (VolumeQuantity.field q1 = PyStr "T" -> ends_in " (K)" t)
      /\ (VolumeQuantity.field q1 <> PyStr "T" -> ends_in " (H m-3)" t)).
Proof.
  unfold AverageVolume_title. split.
  - intros Hfield Hunits. rewrite <- Hfield, <- Hunits.
    destruct (py_str (VolumeQuantity.field q1)) as [f|]; [|discriminate].
    intros H1 H2. rewrite <- H1 in H2. clear H1.
    assert (Hbase :
      String.append "Average "
        (String.append f (String.append " volume "
                            (pretty (VolumeQuantity.volume q2))))
      = String.append "Average "
          (String.append f (String.append " volume "
                              (pretty (VolumeQuantity.volume q1))))).
    { destruct (VolumeQuantity.show_units q1);
        [destruct (py_eq_str (VolumeQuantity.field q1) "T")|];
        apply (inj Some) in H2; try exact H2;
        now apply append_cancel_r in H2. }
    do 3 apply append_cancel_l in Hbase.
    symmetry. now apply (inj pretty).
  - intros Hunits. rewrite Hunits.
    destruct (py_str (VolumeQuantity.field q1)) as [f|]; [|discriminate].
    intros Htitle. split.
    + intros Hfield. rewrite Hfield in Htitle. simpl in Htitle.
      apply (inj Some) in Htitle. subst t. eexists. reflexivity.
    + intros Hfield.
      destruct (py_eq_str (VolumeQuantity.field q1) "T") eqn:Heq.
      * exfalso. apply Hfield. unfold py_eq_str in Heq.
        destruct (VolumeQuantity.field q1); try discriminate Heq.
        apply String.eqb_eq in Heq. now subst.
      * apply (inj Some) in Htitle. subst t. eexists. reflexivity.
Qed.

Lemma average_title_tells_volumes_apart_witness :
  ends_in " (K)" "Average T volume 3 (K)".
Proof.
  destruct (@average_title_tells_volumes_apart quadrature
              (@VolumeQuantity.mk quadrature (PyStr "T") 3%Z true
                 (constant_function 300) sample_mesh)
              (@VolumeQuantity.mk quadrature (PyStr "T") 3%Z true
                 (constant_function 300) sample_mesh)
              "Average T volume 3 (K)") as (_ & Hunits).
  apply Hunits; reflexivity.
Defined.

(** X25.  The titles of the totals tell quantities apart: on one field, two
    [TotalVolume] have the same title only for the same volume id, two
    [TotalSurface] only for the same surface id, and a [TotalVolume] never
    has the title of a [TotalSurface]. *)
Theorem total_titles_tell_quantities_apart `{Engine} :
  (forall (v1 v2 : TotalVolume.t) (t : string),
      DerivedQuantity.field (TotalVolume.super v1)
      = DerivedQuantity.field (TotalVolume.super v2) ->
      TotalVolume_title v1 = Some t -> TotalVolume_title v2 = Some t ->
      TotalVolume.volume v1 = TotalVolume.volume v2)
  /\ (forall (s1 s2 : TotalSurface.t) (t : string),
        DerivedQuantity.field (TotalSurface.super s1)
        = DerivedQuantity.field (TotalSurface.super s2) ->
        TotalSurface_title s1 = Some t -> TotalSurface_title s2 = Some t ->
        TotalSurface.surface s1 = TotalSurface.surface s2)
  /\ (forall (v : TotalVolume.t) (s : TotalSurface.t) (t : string),
        DerivedQuantity.field (TotalVolume.super v)
        = DerivedQuantity.field (TotalSurface.super s) ->
        TotalVolume_title v = Some t -> TotalSurface_title s <> Some t).
Proof.
  unfold TotalVolume_title, TotalSurface_title. split; [|split].
  - intros v1 v2 t Hfield. rewrite <- Hfield.
    destruct (py_str _) as [f|]; [|discriminate].
    intros H1 H2. rewrite <- H1 in H2. apply (inj Some) in H2.
    do 3 apply append_cancel_l in H2. symmetry. now apply (inj pretty).
  - intros s1 s2 t Hfield. rewrite <- Hfield.
    destruct (py_str _) as [f|]; [|discriminate].
    intros H1 H2. rewrite <- H1 in H2. apply (inj Some) in H2.
    do 3 apply append_cancel_l in H2. symmetry. now apply (inj pretty).
  - intros v s t Hfield. rewrite <- Hfield.
    destruct (py_str _) as [f|]; [|discriminate].
    intros H1 H2. rewrite <- H1 in H2. apply (inj Some) in H2.
    do 2 apply append_cancel_l in H2.
    rewrite !append_cons in H2. congruence.
Qed.

Lemma total_titles_tell_quantities_apart_witness :
  @TotalSurface_title quadrature
    (TotalSurface.__init__
       (@DerivedQuantity.mk quadrature (PyStr "solute") (constant_function 1)
          sample_mesh sample_mesh) 2%Z)
  <> Some "Total solute volume 2"%string.
Proof.
  destruct (@total_titles_tell_quantities_apart quadrature) as (_ & _ & Hvs).
  apply (Hvs (TotalVolume.__init__
                (@DerivedQuantity.mk quadrature (PyStr "solute")
                   (constant_function 1) sample_mesh sample_mesh) 2%Z));
    reflexivity.
Defined.

(** ** [TotalSurface] *)

(** X26.  [TotalSurface.compute] integrates over the surface measure only:
    the volume measure of the instance plays no part, on a field equal to 1
    everywhere the value is the measure of the surface, and with a
    quadrature rule a surface id that tags no facet gives 0. *)
Theorem total_surface_of_unit_field `{Engine} :
  (forall (field : pyobj) (function : Function) (dx dx' ds : Measure)
          (surface : Z),
      TotalSurface.compute
        (TotalSurface.__init__ (@DerivedQuantity.mk _ field function dx ds)
           surface)
      = TotalSurface.compute
          (TotalSurface.__init__ (@DerivedQuantity.mk _ field function dx' ds)
             surface))
  /\ (forall self : TotalSurface.t,
        (forall p, fn_value (DerivedQuantity.function
                               (TotalSurface.super self)) p = 1%R) ->
        TotalSurface.compute self
        = measure_of (DerivedQuantity.ds (TotalSurface.super self))
                     (TotalSurface.surface self))
  /\ (forall self : @TotalSurface.t quadrature,
        (forall qp, In qp (DerivedQuantity.ds (TotalSurface.super self)) ->
                    qp_tag qp <> TotalSurface.surface self) ->
        @TotalSurface.compute quadrature self = 0%R).
Proof.
  split; [reflexivity|]. split.
  - intros self Hone. unfold TotalSurface.compute, measure_of.
    apply assemble_ext. exact Hone.
  - intros self Hnone. unfold TotalSurface.compute.
    now apply quad_assemble_untagged.
Qed.

Lemma total_surface_of_unit_field_witness :
  @TotalSurface.compute quadrature
    (TotalSurface.__init__
       (@DerivedQuantity.mk quadrature (PyStr "solute") (constant_function 1)
          [] sample_mesh)
       2%Z)
  = @measure_of quadrature sample_mesh 2%Z.
Proof.
  destruct (@total_surface_of_unit_field quadrature) as (_ & Hunit & _).
  apply (Hunit (TotalSurface.__init__
                  (@DerivedQuantity.mk quadrature (PyStr "solute")
                     (constant_function 1) [] sample_mesh)
                  2%Z)).
  reflexivity.
Defined.

(** ** [test_permeation_problem]: Sieverts' law and the time loop *)

(** X27.  For a temperature and a [k_B] that are not zero (with either
    equal to zero the two divisions of the Python expression raise
    [ZeroDivisionError] and nothing is returned), the surface concentration
    given by [siverts_law] grows as the square root of the pressure: it is
    0 at zero pressure, a pressure [k^2] times larger gives a concentration
    [k] times larger, and for a positive [S_0] a higher pressure gives a
    higher concentration. *)
Theorem siverts_law_square_root_of_pressure (k_B T S_0 E_S : R) :
  k_B <> 0%R -> T <> 0%R ->
  test_permeation_problem.siverts_law k_B T S_0 E_S 0 = 0%R
  /\ (forall k pressure : R,
        (0 <= k)%R -> (0 <= pressure)%R ->
        test_permeation_problem.siverts_law k_B T S_0 E_S (k * k * pressure)
        = (k * test_permeation_problem.siverts_law k_B T S_0 E_S pressure)%R)
  /\ (forall p1 p2 : R,
        (0 < S_0)%R -> (0 <= p1 < p2)%R ->
        (test_permeation_problem.siverts_law k_B T S_0 E_S p1
         < test_permeation_problem.siverts_law k_B T S_0 E_S p2)%R).
Proof.
  intros _ _.
  unfold test_permeation_problem.siverts_law. split; [|split].
  - rewrite sqrt_0. ring.
  - intros k pressure Hk Hp.
    rewrite sqrt_mult_alt by nra. rewrite sqrt_square by exact Hk. ring.
  - intros p1 p2 HS [Hp1 Hp12].
    apply Rmult_lt_compat_l.
    + apply Rmult_lt_0_compat; [exact HS | apply exp_pos].
    + apply sqrt_lt_1; lra.
Qed.

Lemma siverts_law_square_root_of_pressure_witness :
  test_permeation_problem.siverts_law 1 500 2 1 (2 * 2 * 25)
  = (2 * test_permeation_problem.siverts_law 1 500 2 1 25)%R.
Proof.
  apply (siverts_law_square_root_of_pressure 1 500 2 1); lra.
Defined.

(** X28.  With the enthalpy of solution [E_S] and [k_B] positive, the
    concentration given by [siverts_law] at a fixed positive pressure
    increases with the temperature. *)
Theorem siverts_law_increases_with_temperature
    (k_B S_0 E_S pressure T1 T2 : R) :
  (0 < k_B)%R -> (0 < E_S)%R -> (0 < S_0)%R -> (0 < pressure)%R ->
  (0 < T1 < T2)%R ->
  (test_permeation_problem.siverts_law k_B T1 S_0 E_S pressure
   < test_permeation_problem.siverts_law k_B T2 S_0 E_S pressure)%R.
Proof.
  intros Hk HE HS Hp [HT1 HT12].
  unfold test_permeation_problem.siverts_law.
  apply Rmult_lt_compat_r; [now apply sqrt_lt_R0|].
  apply Rmult_lt_compat_l; [exact HS|]. apply exp_increasing.
  assert (Hinv : (/ T2 < / T1)%R) by (apply Rinv_lt_contravar; nra).
  assert (Hpos : (0 < E_S / k_B)%R) by (apply Rdiv_lt_0_compat; lra).
  unfold Rdiv in *. nra.
Qed.

Lemma siverts_law_increases_with_temperature_witness :
  (test_permeation_problem.siverts_law 1 300 2 1 100
   < test_permeation_problem.siverts_law 1 500 2 1 100)%R.
Proof.
  apply siverts_law_increases_with_temperature; lra.
Defined.

Section TimeLoop.
Variable U : Type.
Variable solve : U -> U -> U.
Variable flux_of : U -> R.
Variable dt : R.
Local Open Scope R_scope.

Local Abbreviation body := (test_permeation_problem.body U solve flux_of dt).
Local Abbreviation while_loop :=
  (fun fuel => test_permeation_problem.while_loop U solve flux_of fuel dt).
Local Abbreviation final_time := test_permeation_problem.final_time.
Local Abbreviation t := (test_permeation_problem.t U).

Lemma body_t (s : test_permeation_problem.state U) : t (body s) = t s + dt.
Proof. reflexivity. Qed.

Lemma iter_body_t (k : nat) (s : test_permeation_problem.state U) :
  t (Nat.iter k body s) = t s + INR k * dt.
Proof.
  induction k as [|k IH].
  - simpl. ring.
  - rewrite Nat.iter_succ, body_t, IH, S_INR. ring.
Qed.

Lemma iter_body_times (k : nat) (s : test_permeation_problem.state U) :
  test_permeation_problem.times U (Nat.iter k body s)
  = test_permeation_problem.times U s
    ++ map (fun j => t s + INR j * dt) (seq 1 k).
Proof.
  induction k as [|k IH].
  - simpl. now rewrite app_nil_r.
  - rewrite Nat.iter_succ. cbn [test_permeation_problem.body
                                 test_permeation_problem.times].
    rewrite IH, iter_body_t, seq_S, map_app, <- app_assoc.
    cbn [map Nat.add]. rewrite S_INR. do 3 f_equal. ring.
Qed.

Lemma while_loop_done (fuel : nat) (s : test_permeation_problem.state U) :
  final_time <= t s -> while_loop fuel s = Some s.
Proof.
  intros Hdone. destruct fuel; simpl;
    destruct (Rlt_dec (t s) final_time); try reflexivity; lra.
Qed.

Lemma loop_exit (n : nat) :
  forall s : test_permeation_problem.state U,
    0 < dt -> final_time - t s <= INR n * dt ->
    exists k : nat,
      (forall fuel, (n <= fuel)%nat ->
                    while_loop fuel s = Some (Nat.iter k body s))
      /\ final_time <= t (Nat.iter k body s)
      /\ (final_time <= t s -> k = 0%nat)
      /\ (t s < final_time ->
          (1 <= k)%nat /\ t (Nat.iter k body s) < final_time + dt).
Proof.
  induction n as [|n IH]; intros s Hdt Hreach.
  - simpl in Hreach. exists 0%nat. simpl.
    repeat split; try lra.
    intros fuel _. apply while_loop_done. lra.
  - destruct (Rlt_dec (t s) final_time) as [Hlt|Hge].
    + destruct (IH (body s) Hdt) as (k & Hrun & Hend & Hzero & Hmore).
      { rewrite body_t. rewrite S_INR in Hreach. lra. }
      exists (S k). rewrite Nat.iter_succ_r. repeat split; try assumption.
      * intros [|fuel] Hfuel; [lia|]. simpl.
        destruct (Rlt_dec (t s) final_time); [|contradiction].
        apply Hrun. lia.
      * intros Hdone. lra.
      * lia.
      * destruct (Rlt_dec (t (body s)) final_time) as [Hlt'|Hge'].
        -- now apply Hmore.
        -- rewrite (Hzero ltac:(lra)). simpl. lra.
    + exists 0%nat. simpl. repeat split; try lra.
      intros fuel _. apply while_loop_done. lra.
Qed.

Lemma loop_stuck (fuel : nat) :
  forall s : test_permeation_problem.state U,
    dt <= 0 -> t s < final_time -> while_loop fuel s = None.
Proof.
  induction fuel as [|fuel IH]; intros s Hdt Hlt; simpl;
    destruct (Rlt_dec (t s) final_time); try contradiction.
  - reflexivity.
  - apply IH; [exact Hdt | rewrite body_t; lra].
Qed.

Lemma while_loop_iter (fuel : nat) :
  forall s s' : test_permeation_problem.state U,
    while_loop fuel s = Some s' ->
    exists k : nat,
      s' = Nat.iter k body s /\ (t s < final_time -> (1 <= k)%nat).
Proof.
  induction fuel as [|fuel IH]; intros s s'; simpl;
    destruct (Rlt_dec (t s) final_time) as [Hlt|Hge]; intros Hrun.
  - discriminate Hrun.
  - inversion Hrun; subst. exists 0%nat. split; [reflexivity | contradiction].
  - destruct (IH _ _ Hrun) as (k & -> & _).
    exists (S k). rewrite Nat.iter_succ_r. split; [reflexivity | lia].
  - inversion Hrun; subst. exists 0%nat. split; [reflexivity | contradiction].
Qed.

Lemma body_series_agree (s : test_permeation_problem.state U) :
  series_agree U flux_of s -> series_agree U flux_of (body s).
Proof.
  intros (Hlen & Htimes & Hflux). unfold series_agree. simpl.
  rewrite !length_app, !map_app, Hlen, Htimes, Hflux. now repeat split.
Qed.

Lemma iter_series_agree (k : nat) (s : test_permeation_problem.state U) :
  series_agree U flux_of s -> series_agree U flux_of (Nat.iter k body s).
Proof.
  intros Hs. induction k as [|k IH]; [exact Hs|].
  rewrite Nat.iter_succ. now apply body_series_agree.
Qed.

End TimeLoop.

Lemma while_loop_guards (U : Type) (solve : U -> U -> U) (flux_of : U -> R)
    (dt : R) (fuel : nat) :
  forall s s' : test_permeation_problem.state U,
    test_permeation_problem.while_loop U solve flux_of fuel dt s = Some s' ->
    exists k : nat,
      s' = Nat.iter k (test_permeation_problem.body U solve flux_of dt) s
      /\ (test_permeation_problem.final_time
          <= test_permeation_problem.t U s')%R
      /\ (forall j, (j < k)%nat ->
            (test_permeation_problem.t U
               (Nat.iter j (test_permeation_problem.body U solve flux_of dt)
                  s)
             < test_permeation_problem.final_time)%R).
Proof.
  induction fuel as [|fuel IH]; intros s s'; simpl;
    destruct (Rlt_dec (test_permeation_problem.t U s)
                test_permeation_problem.final_time) as [Hlt|Hge];
    intros Hrun.
  - discriminate Hrun.
  - inversion Hrun; subst. exists 0%nat.
    split; [reflexivity|]. split; [lra|]. intros j Hj. lia.
  - destruct (IH _ _ Hrun) as (k & -> & Hend & Hguards).
    exists (S k). rewrite Nat.iter_succ_r.
    split; [reflexivity|]. split; [exact Hend|].
    intros [|j] Hj; [exact Hlt|].
    rewrite Nat.iter_succ_r. apply Hguards. lia.
  - inversion Hrun; subst. exists 0%nat.
    split; [reflexivity|]. split; [lra|]. intros j Hj. lia.
Qed.

Lemma Forall_map_seq (P : R -> Prop) (f : nat -> R) (k : nat) :
  forall a : nat,
    (forall j, (a <= j < a + k)%nat -> P (f j)) ->
    Forall P (map f (seq a k)).
Proof.
  induction k as [|k IH]; intros a Hall; simpl; constructor.
  - apply Hall. lia.
  - apply IH. intros j Hj. apply Hall. lia.
Qed.

Lemma multiples_increase (c dt : R) (k : nat) :
  (0 < dt)%R ->
  forall a : nat,
    StronglySorted Rlt (map (fun j => c + INR j * dt)%R (seq a k)).
Proof.
  intros Hdt. induction k as [|k IH]; intros a; simpl; constructor.
  - apply IH.
  - apply Forall_map_seq. intros j Hj.
    assert (Hlt : (INR a < INR j)%R) by (apply lt_INR; lia). nra.
Qed.

(** X29.  With a time step that is zero or negative the time loop never
    ends.  When it ends, the step was positive, at least one pass was made,
    the times recorded are strictly increasing, all of them but the last
    are below [final_time], and the last, which is the current time, is not:
    the loop stops at the first time that reaches [final_time], which may
    lie beyond it. *)
Theorem time_loop_stops_at_first_time_reached (U : Type)
    (solve : U -> U -> U) (flux_of : U -> R) (u0 u_n0 : U)
    (txt0 : gmap string (list R)) (dt : R) :
  ((dt <= 0)%R ->
   forall fuel,
     test_permeation_problem.while_loop U solve flux_of fuel dt
       (test_permeation_problem.start U u0 u_n0 txt0)
     = None)
  /\ (forall fuel s',
        test_permeation_problem.while_loop U solve flux_of fuel dt
          (test_permeation_problem.start U u0 u_n0 txt0)
        = Some s' ->
        (0 < dt)%R
        /\ exists earlier : list R,
             test_permeation_problem.times U s'
             = earlier ++ [test_permeation_problem.t U s']
             /\ Forall (fun x => x < test_permeation_problem.final_time)%R
                       earlier
             /\ (test_permeation_problem.final_time
                 <= test_permeation_problem.t U s')%R
             /\ StronglySorted Rlt (test_permeation_problem.times U s')).
Proof.
  assert (Hstart : (test_permeation_problem.t U
                      (test_permeation_problem.start U u0 u_n0 txt0)
                    < test_permeation_problem.final_time)%R).
  { simpl. unfold test_permeation_problem.final_time. lra. }
  split.
  - intros Hdt fuel. now apply loop_stuck.
  - intros fuel s' Hrun.
    assert (Hdt : (0 < dt)%R).
    { destruct (Rlt_dec 0 dt) as [Hpos|Hneg]; [exact Hpos|].
      assert (Hle : (dt <= 0)%R) by lra.
      rewrite (loop_stuck U solve flux_of dt fuel _ Hle Hstart) in Hrun.
      discriminate Hrun. }
    split; [exact Hdt|].
    destruct (while_loop_guards U solve flux_of dt fuel _ _ Hrun)
      as (k & -> & Hend & Hguards).
    destruct k as [|k];
      [simpl in Hend; unfold test_permeation_problem.final_time in Hend; lra|].
    exists (map (fun j => test_permeation_problem.t U
                            (test_permeation_problem.start U u0 u_n0 txt0)
                          + INR j * dt)%R (seq 1 k)).
    split; [|split; [|split]].
    + rewrite iter_body_times, iter_body_t, seq_S, map_app. reflexivity.
    + apply Forall_map_seq. intros j Hj.
      rewrite <- (iter_body_t U solve flux_of dt). apply Hguards. lia.
    + exact Hend.
    + rewrite iter_body_times.
      exact (multiples_increase _ dt (S k) Hdt 1%nat).
Qed.

Lemma time_loop_stops_at_first_time_reached_witness :
  test_permeation_problem.while_loop R (fun u_n _ => u_n + 1)%R
    (fun u => u) 1000 0
    (test_permeation_problem.start R 0%R 0%R ∅)
  = None
  /\ (0 < 30)%R
  /\ exists earlier : list R,
       [0 + 30; 0 + 30 + 30]%R = earlier ++ [0 + 30 + 30]%R
       /\ Forall (fun x => x < test_permeation_problem.final_time)%R earlier
       /\ (test_permeation_problem.final_time <= 0 + 30 + 30)%R
       /\ StronglySorted Rlt [0 + 30; 0 + 30 + 30]%R.
Proof.
  destruct (time_loop_stops_at_first_time_reached R
              (fun u_n _ => u_n + 1)%R (fun u => u) 0%R 0%R ∅ 0%R)
    as (Hnever & _).
  destruct (time_loop_stops_at_first_time_reached R
              (fun u_n _ => u_n + 1)%R (fun u => u) 0%R 0%R ∅ 30%R)
    as (_ & Hends).
  split; [apply Hnever; lra|].
  apply (Hends 2%nat
           (test_permeation_problem.body R (fun u_n _ => u_n + 1)%R
              (fun u => u) 30
              (test_permeation_problem.body R (fun u_n _ => u_n + 1)%R
                 (fun u => u) 30
                 (test_permeation_problem.start R 0%R 0%R ∅)))).
  simpl. unfold test_permeation_problem.final_time.
  destruct (Rlt_dec 0 50) as [_|Hno]; [|lra].
  destruct (Rlt_dec (0 + 30) 50) as [_|Hno]; [|lra].
  destruct (Rlt_dec (0 + 30 + 30) 50) as [Hyes|_]; [lra|].
  reflexivity.
Defined.

(** X30.  When the time loop ends it has recorded every step it made: there
    are as many fluxes as times, the XDMF file holds one function per
    recorded time, each flux is the flux of the function written at that
    time, the two text files hold the two complete lists, the last time
    recorded is the current time, and the previous solution has caught up
    with the current one. *)
Theorem time_loop_records_every_step (U : Type) (solve : U -> U -> U)
    (flux_of : U -> R) (u0 u_n0 : U) (txt0 : gmap string (list R))
    (dt : R) (fuel : nat) (s' : test_permeation_problem.state U) :
  test_permeation_problem.while_loop U solve flux_of fuel dt
    (test_permeation_problem.start U u0 u_n0 txt0)
  = Some s' ->
  length (test_permeation_problem.flux_values U s')
    = length (test_permeation_problem.times U s')
  /\ map snd (test_permeation_problem.xdmf U s')
     = test_permeation_problem.times U s'
  /\ map (fun e => flux_of (fst e)) (test_permeation_problem.xdmf U s')
     = test_permeation_problem.flux_values U s'
  /\ test_permeation_problem.txt U s' !! "times.txt"%string
     = Some (test_permeation_problem.times U s')
  /\ test_permeation_problem.txt U s' !! "outgassing_flux.txt"%string
     = Some (test_permeation_problem.flux_values U s')
  /\ last (test_permeation_problem.times U s')
     = Some (test_permeation_problem.t U s')
  /\ test_permeation_problem.u_n U s' = test_permeation_problem.u U s'.
Proof.
  intros Hrun.
  destruct (while_loop_iter U solve flux_of dt fuel _ _ Hrun)
    as (k & -> & Hk).
  destruct k as [|k].
  { exfalso.
    assert (Hone : (1 <= 0)%nat)
      by (apply Hk; simpl; unfold test_permeation_problem.final_time; lra).
    lia. }
  assert (Hagree : series_agree U flux_of
                     (Nat.iter (S k) (test_permeation_problem.body U solve
                                        flux_of dt)
                        (test_permeation_problem.start U u0 u_n0 txt0))).
  { apply iter_series_agree. now repeat split. }
  destruct Hagree as (Hlen & Htimes & Hflux).
  split; [exact Hlen|]. split; [exact Htimes|]. split; [exact Hflux|].
  rewrite Nat.iter_succ.
  cbn [test_permeation_problem.body test_permeation_problem.txt
       test_permeation_problem.times test_permeation_problem.flux_values
       test_permeation_problem.t test_permeation_problem.u
       test_permeation_problem.u_n].
  split; [apply lookup_insert_eq|].
  split; [rewrite lookup_insert_ne by discriminate; apply lookup_insert_eq|].
  split; [apply last_snoc | reflexivity].
Qed.

Lemma time_loop_records_every_step_witness :
  test_permeation_problem.txt R
    (test_permeation_problem.body R (fun u_n _ => u_n + 1)%R (fun u => u) 50
       (test_permeation_problem.start R 0%R 0%R ∅))
    !! "times.txt"%string
  = Some (test_permeation_problem.times R
            (test_permeation_problem.body R (fun u_n _ => u_n + 1)%R
               (fun u => u) 50
               (test_permeation_problem.start R 0%R 0%R ∅))).
Proof.
  apply (time_loop_records_every_step R (fun u_n _ => u_n + 1)%R
           (fun u => u) 0%R 0%R ∅ 50%R 1%nat).
  simpl. unfold test_permeation_problem.final_time.
  destruct (Rlt_dec 0 50) as [_|Hno]; [|lra].
  destruct (Rlt_dec (0 + 50) 50) as [Hyes|_]; [lra|].
  reflexivity.
Defined.
